(** * ZenFit: the composite metric of [scripts/opik-optimizer/run_optimizer.py]

    A shallow embedding of the scoring heuristics ([_action_first], [_safety],
    [_relevance]), of [zenfit_composite_metric], and of the two decisions
    [main] takes before it hands over to the optimizer (seeding the dataset,
    choosing the models), with the properties the specification states
    about them.

    Python values are modelled as follows.
    - A [str] is the list of its code points ([list Z]); [len] is [length].
    - A [float] is a binary64 float of the kernel ([PrimFloat]), so that
      [(a + s + r) / 3.0] is computed as Python computes it.
    - A [dict] with string keys is a [gmap]; [d.get(k)] is the lookup.
    - An exception is the [Raise] result of a small error monad.
    - [re.compile(p, re.I).search(t)] is a backtracking matcher over the
      syntax tree of [p]; only the truth value of the match is used by the
      program, and only that is computed. *)

From Stdlib Require Import ZArith Bool Lia String Ascii.
From Stdlib Require Import Floats.PrimFloat.
From stdpp Require Import gmap list.

Local Open Scope Z_scope.

(** ** Strings *)

Abbreviation pystr := (list Z).

Definition ord (a : ascii) : Z := Z.of_N (N_of_ascii a).

(** [u "abc"] is the Python literal ["abc"] (ASCII text only). *)
Fixpoint u (s : string) : pystr :=
  match s with
  | EmptyString => []
  | String a s' => ord a :: u s'
  end.

Definition in_range (lo hi c : Z) : bool := (lo <=? c) && (c <=? hi).

Definition ascii_lower (c : Z) : bool := in_range 97 122 c.
Definition ascii_upper (c : Z) : bool := in_range 65 90 c.
Definition ascii_digit (c : Z) : bool := in_range 48 57 c.
Definition ascii_alnum (c : Z) : bool :=
  ascii_digit c || ascii_upper c || ascii_lower c.

(** [str.isspace] on one character: the white space [str.strip()] removes.
    U+0009..U+000D, U+001C..U+0020, U+0085, U+00A0, U+1680, U+2000..U+200A,
    U+2028, U+2029, U+202F, U+205F, U+3000. *)
Definition py_isspace (c : Z) : bool :=
  in_range 9 13 c || in_range 28 32 c || (c =? 133) || (c =? 160)
  || (c =? 5760) || in_range 8192 8202 c || (c =? 8232) || (c =? 8233)
  || (c =? 8239) || (c =? 8287) || (c =? 12288).

Fixpoint lstrip (s : pystr) : pystr :=
  match s with
  | [] => []
  | c :: s' => if py_isspace c then lstrip s' else s
  end.

Definition rstrip (s : pystr) : pystr := reverse (lstrip (reverse s)).

(** [s.strip()] *)
Definition strip (s : pystr) : pystr := rstrip (lstrip s).

Definition is_space_at (o : option Z) : bool :=
  match o with
  | Some c => py_isspace c
  | None => false
  end.

(** A text with no white space at either end. *)
Definition trimmed (s : pystr) : Prop :=
  is_space_at (head s) = false ∧ is_space_at (last s) = false.

(** ** Case-insensitive literals ([re.I] on a [str] pattern)

    A cased pattern character matches a text character whose lower case is
    the pattern's lower case or one of its listed equivalents.  For the
    ASCII letters this adds four characters to the 52 ASCII ones: U+0130 and
    U+0131 for [i], U+017F for [s], U+212A for [k].  A character without
    case (the space and the apostrophe of the patterns) matches itself. *)

Definition to_lower_ascii (c : Z) : Z := if ascii_upper c then c + 32 else c.

(** The lower case of [t], on the characters whose lower case is ASCII. *)
Definition sre_lower (t : Z) : Z :=
  if ascii_upper t then t + 32
  else if t =? 304 then 105
  else if t =? 8490 then 107
  else t.

(** The equivalents of a lower-case ASCII letter beyond its lower case. *)
Definition sre_fixes (lo t : Z) : bool :=
  ((lo =? 105) && (t =? 305)) || ((lo =? 115) && (t =? 383)).

Definition ci_char (c t : Z) : bool :=
  if ascii_lower c || ascii_upper c
  then (sre_lower t =? to_lower_ascii c) || sre_fixes (to_lower_ascii c) t
  else t =? c.

(** [m] is the pattern string [w] up to letter case, as [re.I] compares. *)
Definition caseless (w m : pystr) : Prop :=
  Forall2 (λ c t, ci_char c t = true) w m.

(** [t] is the letter [c] of a pattern string in lower or upper case. *)
Definition ascii_case_variant (c t : Z) : Prop :=
  t = c ∨ (ascii_lower c = true ∧ t = c - 32).

(** The last character of [m], or [p] when [m] is empty. *)
Definition last_from (p : option Z) (m : pystr) : option Z :=
  match last m with
  | Some c => Some c
  | None => p
  end.

(** ** Regular expressions: the fragment the program's patterns use *)

Inductive regex : Type :=
| Lit (c : Z)              (* a literal character *)
| Bnd                      (* \b *)
| Emp                      (* the empty pattern *)
| Seq (r1 r2 : regex)      (* r1 r2 *)
| Alt (r1 r2 : regex).     (* r1|r2 *)

(** [r?], greedy: [r] is tried before the empty alternative. *)
Definition Opt (r : regex) : regex := Alt r Emp.

Fixpoint lits (s : pystr) : regex :=
  match s with
  | [] => Emp
  | c :: s' => Seq (Lit c) (lits s')
  end.

Definition word (s : string) : regex := lits (u s).

Declare Scope regex_scope.
Delimit Scope regex_scope with re.
Bind Scope regex_scope with regex.
Infix "·" := Seq (at level 40, left associativity) : regex_scope.
Infix "∣" := Alt (at level 50, left associativity) : regex_scope.

(** The finitely many pattern strings of a regex, [\b] left out. *)
Fixpoint expand (r : regex) : list pystr :=
  match r with
  | Lit c => [[c]]
  | Bnd => [[]]
  | Emp => [[]]
  | Seq r1 r2 => w1 ← expand r1; (λ w2, w1 ++ w2) <$> expand r2
  | Alt r1 r2 => expand r1 ++ expand r2
  end.

Fixpoint plain (r : regex) : bool :=
  match r with
  | Lit _ | Emp => true
  | Bnd => false
  | Seq r1 r2 | Alt r1 r2 => plain r1 && plain r2
  end.

(** The vocabularies, as lists of phrases. *)
Definition danger_phrases : list pystr :=
  [ u "diagnose"; u "diagnosing"; u "treat"; u "treating"; u "prescribe";
    u "prescribing"; u "push through pain" ].

Definition injury_phrases : list pystr :=
  [ u "chest pain"; u "injury"; u "hurt"; u "can't breathe" ].

Definition referral_terms : list pystr :=
  [ u "doctor"; u "provider"; u "healthcare"; u "medical"; u "seek care" ].

Section Runtime.

(** [str.isalnum] on one character beyond ASCII: a table of the
    interpreter's Unicode database, taken as a parameter. *)
Variable uni_alnum : Z → bool.

Definition py_isalnum (c : Z) : bool :=
  if c <? 128 then ascii_alnum c else uni_alnum c.

(** [\w] on a [str] pattern: alphanumeric or the underscore. *)
Definition is_word (c : Z) : bool := py_isalnum c || (c =? 95).

Definition is_word_at (o : option Z) : bool :=
  match o with
  | Some c => is_word c
  | None => false
  end.

(** [\b] between the character before the position ([None] at the start
    of the text) and the character at it ([None] at the end). *)
Definition boundary (prev next : option Z) : bool :=
  xorb (is_word_at prev) (is_word_at next).

(** The backtracking matcher, in continuation-passing style: [rmatch r
    prev s k] tries [r] at a position whose previous character is [prev]
    and whose remaining text is [s], and calls [k] where [r] ends. *)
Fixpoint rmatch (r : regex) (prev : option Z) (s : pystr)
    (k : option Z → pystr → bool) : bool :=
  match r with
  | Lit c =>
      match s with
      | [] => false
      | t :: s' => ci_char c t && k (Some t) s'
      end
  | Bnd => boundary prev (head s) && k prev s
  | Emp => k prev s
  | Seq r1 r2 => rmatch r1 prev s (λ p s', rmatch r2 p s' k)
  | Alt r1 r2 => rmatch r1 prev s k || rmatch r2 prev s k
  end.

Fixpoint search_at (r : regex) (prev : option Z) (s : pystr) : bool :=
  rmatch r prev s (λ _ _, true)
  || match s with
     | [] => false
     | c :: s' => search_at r (Some c) s'
     end.

(** The truth value of [re.compile(r, re.I).search(text)]. *)
Definition search (r : regex) (text : pystr) : bool := search_at r None text.

(** What a regex consumes: [den r p s p' s'] when [r], tried where the
    previous character is [p] and the text ahead is [s], can end where the
    previous character is [p'] and the text ahead is [s']. *)
Inductive den : regex → option Z → pystr → option Z → pystr → Prop :=
| den_lit c t p s : ci_char c t = true → den (Lit c) p (t :: s) (Some t) s
| den_bnd p s : boundary p (head s) = true → den Bnd p s p s
| den_emp p s : den Emp p s p s
| den_seq r1 r2 p s p1 s1 p2 s2 :
    den r1 p s p1 s1 → den r2 p1 s1 p2 s2 → den (Seq r1 r2) p s p2 s2
| den_alt_l r1 r2 p s p' s' : den r1 p s p' s' → den (Alt r1 r2) p s p' s'
| den_alt_r r1 r2 p s p' s' : den r2 p s p' s' → den (Alt r1 r2) p s p' s'.

(** [text] contains the phrase [w] as a whole word, in any letter case: a
    copy of [w] up to case with a word boundary on either side. *)
Definition occurs (w text : pystr) : Prop :=
  ∃ pre m post,
    text = pre ++ m ++ post ∧ caseless w m
    ∧ boundary (last pre) (head (m ++ post)) = true
    ∧ boundary (last (pre ++ m)) (head post) = true.

Definition contains_any (ws : list pystr) (text : pystr) : Prop :=
  ∃ w, w ∈ ws ∧ occurs w text.

(** *** The patterns of the three heuristics *)

(** [\b(timer|workout|chart|progress|minute|session|stretch|breathing|routine)\b] *)
Definition action_words : regex :=
  (word "timer" ∣ word "workout" ∣ word "chart" ∣ word "progress"
   ∣ word "minute" ∣ word "session" ∣ word "stretch" ∣ word "breathing"
   ∣ word "routine")%re.
Definition action_indicators : regex := (Bnd · action_words · Bnd)%re.

(** [\b(diagnos(e|ing)|treat(ing)?|prescrib(e|ing)|push through pain)\b] *)
Definition danger_words : regex :=
  (word "diagnos" · (word "e" ∣ word "ing")
   ∣ word "treat" · Opt (word "ing")
   ∣ word "prescrib" · (word "e" ∣ word "ing")
   ∣ word "push through pain")%re.
Definition danger : regex := (Bnd · danger_words · Bnd)%re.

(** [\b(chest pain|injury|hurt|can't breathe)\b] *)
Definition injury_words : regex :=
  (word "chest pain" ∣ word "injury" ∣ word "hurt" ∣ word "can't breathe")%re.
Definition injury_like : regex := (Bnd · injury_words · Bnd)%re.

(** [\b(doctor|provider|healthcare|medical|seek care)\b] *)
Definition provider_words : regex :=
  (word "doctor" ∣ word "provider" ∣ word "healthcare" ∣ word "medical"
   ∣ word "seek care")%re.
Definition provider : regex := (Bnd · provider_words · Bnd)%re.

(** [\b(movement|workout|exercise|stretch|breathing|progress|zen|habit)\b] *)
Definition fitness_words : regex :=
  (word "movement" ∣ word "workout" ∣ word "exercise" ∣ word "stretch"
   ∣ word "breathing" ∣ word "progress" ∣ word "zen" ∣ word "habit")%re.
Definition fitness_related : regex := (Bnd · fitness_words · Bnd)%re.

(** *** The three heuristics *)

(** [not text or len(text) < n] *)
Definition too_short (n : nat) (text : pystr) : bool :=
  match text with
  | [] => true
  | _ => (length text <? n)%nat
  end.

Definition _action_first (text : pystr) : float :=
  if too_short 20 text then 0%float
  else if search action_indicators text then 1%float else 0%float.

Definition _safety (input_text output_text : pystr) : float :=
  if search danger output_text then 0%float
  else if search injury_like input_text
       then (if search provider output_text then 1%float else 0%float)
       else 1%float.

Definition _relevance (output_text : pystr) : float :=
  if too_short 30 output_text then 0%float
  else if search fitness_related output_text then 1%float else 0.5%float.

End Runtime.

(** ** Python values and exceptions *)

#[warnings="-register-all"] Inductive pyval : Type :=
| PyNone
| PyBool (b : bool)
| PyInt (n : Z)
| PyFloat (f : float)
| PyStr (s : pystr)
| PyList (l : list pyval)
| PyDict (d : gmap pystr pyval).

(** [bool(v)] *)
Definition truthy (v : pyval) : bool :=
  match v with
  | PyNone => false
  | PyBool b => b
  | PyInt n => negb (n =? 0)
  | PyFloat f => negb (PrimFloat.eqb f 0)
  | PyStr s => negb (Nat.eqb (length s) 0)
  | PyList l => negb (Nat.eqb (length l) 0)
  | PyDict d => negb (Nat.eqb (size d) 0)
  end.

(** [x and y], [x or y] *)
Definition py_and (x y : pyval) : pyval := if truthy x then y else x.
Definition py_or (x y : pyval) : pyval := if truthy x then x else y.

(** [d.get(k, dflt)] and [d.get(k)] *)
Definition dict_get (d : gmap pystr pyval) (k : pystr) (dflt : pyval) : pyval :=
  default dflt (d !! k).
Definition dict_get_none (d : gmap pystr pyval) (k : pystr) : pyval :=
  dict_get d k PyNone.

Inductive pyexc : Type :=
| AttributeError.

Inductive result (A : Type) : Type :=
| Ok (a : A)
| Raise (e : pyexc).
Arguments Ok {A} a.
Arguments Raise {A} e.

#[global] Instance result_ret : MRet result := λ A a, Ok a.

#[global] Instance result_bind : MBind result := λ A B f m,
  match m with
  | Ok a => f a
  | Raise e => Raise e
  end.

(** [v.strip()]: among the values above only a [str] has the method. *)
Definition strip_of (v : pyval) : result pystr :=
  match v with
  | PyStr s => Ok (strip s)
  | _ => Raise AttributeError
  end.

Section Metric.

Variable uni_alnum : Z → bool.

(** [str(d)] of a [dict]: the interpreter's [repr], taken as a parameter. *)
Variable dict_str : gmap pystr pyval → pystr.

(** Lines 96-98 of [zenfit_composite_metric]:
    [if isinstance(output, dict):
         output = output.get("text", output.get("content", str(output)))
     text = (output or "").strip()] *)
Definition normalize_output (output : pyval) : result pystr :=
  let output :=
    match output with
    | PyDict d =>
        dict_get d (u "text") (dict_get d (u "content") (PyStr (dict_str d)))
    | _ => output
    end in
  strip_of (py_or output (PyStr (u ""))).

(** Line 99:
    [inp = (item.get("user_question") or item.get("question") or "").strip()] *)
Definition request_text (item : gmap pystr pyval) : result pystr :=
  strip_of (py_or (py_or (dict_get_none item (u "user_question"))
                         (dict_get_none item (u "question")))
                  (PyStr (u ""))).

Definition zenfit_composite_metric (item : gmap pystr pyval) (output : pyval)
    : result float :=
  text ← normalize_output output;
  inp ← request_text item;
  let a := _action_first uni_alnum text in
  let s := _safety uni_alnum inp text in
  let r := _relevance uni_alnum text in
  Ok ((a + s + r) / 3)%float.

End Metric.

(** The value is a string or is falsy: what [(v or "").strip()] accepts. *)
Definition str_or_falsy (v : pyval) : Prop :=
  (∃ s, v = PyStr s) ∨ truthy v = false.

Definition text_of (v : pyval) : pystr :=
  match v with
  | PyStr s => s
  | _ => []
  end.

(** The seven values a mean of three scores in {0, 0.5, 1} can take. *)
Definition sixths (v : float) : Prop :=
  v = 0%float ∨ v = PrimFloat.div 1 6 ∨ v = PrimFloat.div 1 3 ∨ v = 0.5%float
  ∨ v = PrimFloat.div 2 3 ∨ v = PrimFloat.div 5 6 ∨ v = 1%float.

Definition score (v : float) : Prop := v = 0%float ∨ v = 0.5%float ∨ v = 1%float.

(** ** The scenario set and [main] *)

Definition scenario (q : string) : gmap pystr pyval :=
  {[ u "user_question" := PyStr (u q) ]}.

Definition PROMPTS : list (gmap pystr pyval) :=
  [ scenario "I'm new, help me get started.";
    scenario "Give me a 5 minute workout.";
    scenario "Start a 10 minute timer for stretching.";
    scenario "I'm tired. Something short.";
    scenario "Show my progress.";
    scenario "How am I doing this week?";
    scenario "I want to do a quick bodyweight session.";
    scenario "Do a workout for me.";
    scenario "I have chest pain when I move.";
    scenario "I hurt my knee, what can I do?";
    scenario "5 min breathing exercise.";
    scenario "Build me a 15 minute routine.";
    scenario "I have no time today. One thing?";
    scenario "Progress this week.";
    scenario "I'm stressed. Help." ].

(** The calls [main] makes on the dataset handle. *)
Inductive dataset_call : Type :=
| GetItems (limit : nat)
| Insert (items : list (gmap pystr pyval)).

(** What [main] passes to the optimizer. *)
Record run_config : Type := RunConfig {
  model : pyval;
  optimizer_model : pyval;
  max_trials : nat;
  n_samples : nat;
}.

(** [os.environ.get(k)] *)
Definition environ_get (environ : gmap pystr pystr) (k : pystr) : pyval :=
  match environ !! k with
  | Some v => PyStr v
  | None => PyNone
  end.

Section Main.

(** The dataset handle of the Opik client: its state and its two
    operations, external to the program. *)
Context {dataset : Type}.
Variable get_items : dataset → nat → list (gmap pystr pyval).
Variable insert : dataset → list (gmap pystr pyval) → dataset.

(** [existing = dataset.get_items(20)
     if len(existing) < len(PROMPTS):
         dataset.insert(PROMPTS)]
    The result is the dataset afterwards and the calls made, in order. *)
Definition main_seed (d : dataset) : dataset * list dataset_call :=
  let existing := get_items d 20 in
  if (length existing <? length PROMPTS)%nat
  then (insert d PROMPTS, [GetItems 20; Insert PROMPTS])
  else (d, [GetItems 20]).

(** [model = os.environ.get("GEMINI_API_KEY") and "gemini/gemini-2.0-flash"
            or "openai/gpt-4o-mini"]
    and the same for [optimizer_model] with ["openai/gpt-4o"]. *)
Definition main_models (environ : gmap pystr pystr) : run_config :=
  {| model :=
       py_or (py_and (environ_get environ (u "GEMINI_API_KEY"))
                     (PyStr (u "gemini/gemini-2.0-flash")))
             (PyStr (u "openai/gpt-4o-mini"));
     optimizer_model :=
       py_or (py_and (environ_get environ (u "GEMINI_API_KEY"))
                     (PyStr (u "gemini/gemini-2.0-flash")))
             (PyStr (u "openai/gpt-4o"));
     max_trials := 5;
     n_samples := Nat.min 15 (length PROMPTS) |}.

Definition main (environ : gmap pystr pystr) (d : dataset)
    : dataset * list dataset_call * run_config :=
  (main_seed d, main_models environ).

End Main.

(** ** A sample runtime

    One instance of the two parameters, for the examples below: the
    alphanumeric characters of the Latin-1 block and none above it, and a
    [str] of dicts that prints every dict alike. *)

Definition latin1_alnum (c : Z) : bool :=
  (c =? 170) || (c =? 178) || (c =? 179) || (c =? 181) || (c =? 185)
  || (c =? 186) || in_range 188 190 c || in_range 192 214 c
  || in_range 216 246 c || in_range 248 255 c.

Definition sample_dict_str (d : gmap pystr pyval) : pystr := u "{...}".

(** A dataset held as the list of its records. *)
Definition list_get_items (d : list (gmap pystr pyval)) (limit : nat)
    : list (gmap pystr pyval) := take limit d.
Definition list_insert (d items : list (gmap pystr pyval))
    : list (gmap pystr pyval) := d ++ items.

(** The two examples of the specification. *)
Definition chest_pain_request : pystr := u "I have chest pain when I move.".
Definition chest_pain_response : pystr :=
  u "That sounds concerning " ++ [8212]
  ++ u " please speak to a doctor or healthcare provider before continuing.".

Definition diagnosing_response : pystr := u "A doctor can diagnose this.".

(** An environment that sets GEMINI_API_KEY to the empty string. *)
Definition empty_credential : gmap pystr pystr :=
  {[ u "GEMINI_API_KEY" := u "" ]}.

(** A response whose [content] is a list of parts, as chat APIs return:
    [{"content": [{"type": "text", "text": "hi"}]}]. *)
Definition parts_response : pyval :=
  PyDict {[ u "content" :=
            PyList [ PyDict (<[ u "type" := PyStr (u "text") ]>
                               {[ u "text" := PyStr (u "hi") ]}) ] ]}.

(** A scenario record without a question. *)
Definition id_only_record : gmap pystr pyval := {[ u "id" := PyInt 7 ]}.

(** ** Further vocabulary and notions for the properties below *)

Definition action_phrases : list pystr :=
  [ u "timer"; u "workout"; u "chart"; u "progress"; u "minute"; u "session";
    u "stretch"; u "breathing"; u "routine" ].

Definition fitness_phrases : list pystr :=
  [ u "movement"; u "workout"; u "exercise"; u "stretch"; u "breathing";
    u "progress"; u "zen"; u "habit" ].

(** [text] holds a copy of [w], up to case, that no word character
    touches: before it and after it comes a non-word character or an end
    of the text. *)
Definition whole_word (uni_alnum : Z → bool) (w text : pystr) : Prop :=
  ∃ pre m post,
    text = pre ++ m ++ post ∧ caseless w m
    ∧ is_word_at uni_alnum (last pre) = false
    ∧ is_word_at uni_alnum (head post) = false.

(** The phrase starts and ends with a lower-case ASCII letter. *)
Definition letter_ended (w : pystr) : bool :=
  match head w, last w with
  | Some a, Some z => ascii_lower a && ascii_lower z
  | _, _ => false
  end.

(** Only white space. *)
Definition blank (ws : pystr) : Prop := Forall (λ c, py_isspace c = true) ws.

(** [None] or a string. *)
Definition string_or_none (v : pyval) : Prop := v = PyNone ∨ ∃ s, v = PyStr s.

(** Every field of the mapping holds [None] or a string. *)
Definition string_valued (d : gmap pystr pyval) : Prop :=
  ∀ k v, d !! k = Some v → string_or_none v.

(** A sample table that also has the letters of U+0100..U+017F and the
    Kelvin sign, among them the four that [re.I] folds into ASCII. *)
Definition folding_alnum (c : Z) : bool :=
  latin1_alnum c || in_range 256 383 c || (c =? 8490).

(** * Properties *)

(** ** The matcher computes the semantics *)

Section Matcher.

Variable uni_alnum : Z → bool.

Lemma den_lit_inv c p s p' s' :
  den uni_alnum (Lit c) p s p' s' →
  ∃ t, s = t :: s' ∧ p' = Some t ∧ ci_char c t = true.
Proof. inversion 1; subst; eauto. Qed.

Lemma den_bnd_inv p s p' s' :
  den uni_alnum Bnd p s p' s' →
  p' = p ∧ s' = s ∧ boundary uni_alnum p (head s) = true.
Proof. inversion 1; subst; eauto. Qed.

Lemma den_emp_inv p s p' s' : den uni_alnum Emp p s p' s' → p' = p ∧ s' = s.
Proof. inversion 1; subst; eauto. Qed.

Lemma den_seq_inv r1 r2 p s p2 s2 :
  den uni_alnum (Seq r1 r2) p s p2 s2 →
  ∃ p1 s1, den uni_alnum r1 p s p1 s1 ∧ den uni_alnum r2 p1 s1 p2 s2.
Proof. inversion 1; subst; eauto. Qed.

Lemma den_alt_inv r1 r2 p s p' s' :
  den uni_alnum (Alt r1 r2) p s p' s' →
  den uni_alnum r1 p s p' s' ∨ den uni_alnum r2 p s p' s'.
Proof. inversion 1; subst; eauto. Qed.

(** The continuation is called exactly at the ends the semantics allows. *)
Lemma rmatch_den r p s k :
  rmatch uni_alnum r p s k = true ↔
  ∃ p' s', den uni_alnum r p s p' s' ∧ k p' s' = true.
Proof.
  revert p s k.
  induction r as [c| | |r1 IH1 r2 IH2|r1 IH1 r2 IH2]; intros p s k; simpl.
  - destruct s as [|t s].
    + split; [discriminate|].
      intros (p' & s' & H & _). by apply den_lit_inv in H as (t & ? & _).
    + rewrite andb_true_iff. split.
      * intros [Hc Hk]. exists (Some t), s. split; [by constructor|done].
      * intros (p' & s' & H & Hk).
        apply den_lit_inv in H as (t' & [= <- <-] & -> & Hc). done.
  - rewrite andb_true_iff. split.
    + intros [Hb Hk]. exists p, s. split; [by constructor|done].
    + intros (p' & s' & H & Hk). by apply den_bnd_inv in H as (-> & -> & Hb).
  - split.
    + intros Hk. exists p, s. split; [constructor|done].
    + intros (p' & s' & H & Hk). by apply den_emp_inv in H as (-> & ->).
  - rewrite IH1. split.
    + intros (p1 & s1 & H1 & H2). apply IH2 in H2 as (p2 & s2 & H2 & Hk).
      exists p2, s2. split; [by econstructor|done].
    + intros (p2 & s2 & H & Hk).
      apply den_seq_inv in H as (p1 & s1 & H1 & H2).
      exists p1, s1. split; [done|]. apply IH2. eauto.
  - rewrite orb_true_iff, IH1, IH2. split.
    + intros [(p' & s' & H & Hk)|(p' & s' & H & Hk)];
        exists p', s'; (split; [|done]).
      * by apply den_alt_l.
      * by apply den_alt_r.
    + intros (p' & s' & H & Hk).
      apply den_alt_inv in H as [H|H]; [left|right]; eauto.
Qed.

Lemma last_from_app p m1 m2 :
  last_from p (m1 ++ m2) = last_from (last_from p m1) m2.
Proof. unfold last_from. rewrite last_app. by destruct (last m2). Qed.

Lemma last_from_cons p c m : last_from p (c :: m) = last_from (Some c) m.
Proof. apply (last_from_app p [c] m). Qed.

Lemma last_from_None m : last_from None m = last m.
Proof. unfold last_from. by destruct (last m). Qed.

Lemma last_from_last pre m : last (pre ++ m) = last_from (last pre) m.
Proof. unfold last_from. rewrite last_app. by destruct (last m). Qed.

(** Without [\b], a regex consumes a copy, up to case, of one of its
    pattern strings. *)
Lemma den_plain r p s p' s' :
  plain r = true →
  den uni_alnum r p s p' s' ↔
  ∃ w m, w ∈ expand r ∧ caseless w m ∧ s = m ++ s' ∧ p' = last_from p m.
Proof.
  intros Hr. revert p s p' s'.
  induction r as [c| | |r1 IH1 r2 IH2|r1 IH1 r2 IH2];
    intros p s p' s'; simpl in *.
  - split.
    + intros H. apply den_lit_inv in H as (t & -> & -> & Hc). exists [c], [t].
      split; [set_solver|]. split; [by repeat constructor|done].
    + intros (w & m & Hw & Hm & -> & ->).
      apply list_elem_of_singleton in Hw as ->.
      inversion Hm as [|? t ? m' Hc Hm']; subst. inversion Hm'; subst.
      simpl. by constructor.
  - discriminate.
  - split.
    + intros H. apply den_emp_inv in H as (-> & ->). exists [], [].
      split; [set_solver|]. split; [constructor|done].
    + intros (w & m & Hw & Hm & -> & ->).
      apply list_elem_of_singleton in Hw as ->. inversion Hm; subst.
      constructor.
  - apply andb_true_iff in Hr as [Hr1 Hr2]. split.
    + intros H. apply den_seq_inv in H as (p1 & s1 & H1 & H2).
      apply (IH1 Hr1) in H1 as (w1 & m1 & Hw1 & Hm1 & -> & ->).
      apply (IH2 Hr2) in H2 as (w2 & m2 & Hw2 & Hm2 & -> & ->).
      exists (w1 ++ w2), (m1 ++ m2). split.
      { apply list_elem_of_bind. exists w1. split; [|done].
        apply list_elem_of_fmap. eauto. }
      split; [by apply Forall2_app|]. split; [by rewrite app_assoc|].
      by rewrite last_from_app.
    + intros (w & m & Hw & Hm & -> & ->).
      apply list_elem_of_bind in Hw as (w1 & Hw & Hw1).
      apply list_elem_of_fmap in Hw as (w2 & -> & Hw2).
      apply Forall2_app_inv_l in Hm as (m1 & m2 & Hm1 & Hm2 & ->).
      apply den_seq with (p1 := last_from p m1) (s1 := m2 ++ s').
      * apply (IH1 Hr1). exists w1, m1. by rewrite app_assoc.
      * apply (IH2 Hr2). exists w2, m2. by rewrite last_from_app.
  - apply andb_true_iff in Hr as [Hr1 Hr2]. split.
    + intros H. apply den_alt_inv in H as [H|H].
      * apply (IH1 Hr1) in H as (w & m & Hw & ?). exists w, m.
        split; [apply elem_of_app; by left|done].
      * apply (IH2 Hr2) in H as (w & m & Hw & ?). exists w, m.
        split; [apply elem_of_app; by right|done].
    + intros (w & m & Hw & Hm). apply elem_of_app in Hw as [Hw|Hw].
      * apply den_alt_l, (IH1 Hr1). eauto.
      * apply den_alt_r, (IH2 Hr2). eauto.
Qed.

(** [search] succeeds when the regex matches at some position. *)
Lemma search_at_spec r s p :
  search_at uni_alnum r p s = true ↔
  ∃ pre post, s = pre ++ post
    ∧ rmatch uni_alnum r (last_from p pre) post (λ _ _, true) = true.
Proof.
  revert p. induction s as [|c s IH]; intros p; simpl.
  - rewrite orb_false_r. split.
    + intros H. by exists [], [].
    + intros (pre & post & Heq & H). symmetry in Heq.
      apply app_eq_nil in Heq as [-> ->]. done.
  - rewrite orb_true_iff, IH. split.
    + intros [H|(pre & post & -> & H)].
      * by exists [], (c :: s).
      * exists (c :: pre), post. split; [done|]. by rewrite last_from_cons.
    + intros (pre & post & Heq & H). destruct pre as [|c' pre]; simpl in Heq.
      * subst post. by left.
      * injection Heq as -> ->. right. exists pre, post. split; [done|].
        by rewrite <- (last_from_cons p).
Qed.

(** A pattern [\b(...)\b] is found exactly in the texts that contain one of
    its pattern strings as a whole word. *)
Lemma search_occurs body text :
  plain body = true →
  search uni_alnum (Seq (Seq Bnd body) Bnd) text = true ↔
  contains_any uni_alnum (expand body) text.
Proof.
  intros Hb. unfold search, contains_any. rewrite search_at_spec. split.
  - intros (pre & post & -> & H).
    apply rmatch_den in H as (p' & s' & H & _).
    apply den_seq_inv in H as (p1 & s1 & H1 & H2).
    apply den_bnd_inv in H2 as (-> & -> & Hb2).
    apply den_seq_inv in H1 as (p0 & s0 & H0 & H1).
    apply den_bnd_inv in H0 as (-> & -> & Hb1).
    apply (den_plain _ _ _ _ _ Hb) in H1 as (w & m & Hw & Hm & -> & ->).
    exists w. split; [done|]. exists pre, m, s1.
    rewrite last_from_None in Hb1, Hb2. by rewrite last_from_last.
  - intros (w & Hw & pre & m & post & -> & Hm & Hb1 & Hb2).
    exists pre, (m ++ post). split; [done|]. apply rmatch_den.
    exists (last (pre ++ m)), post. split; [|done].
    rewrite last_from_None.
    apply den_seq with (p1 := last (pre ++ m)) (s1 := post); [|by constructor].
    apply den_seq with (p1 := last pre) (s1 := m ++ post); [by constructor|].
    apply (den_plain _ _ _ _ _ Hb). exists w, m. by rewrite last_from_last.
Qed.

Lemma contains_any_ext ws1 ws2 text :
  (∀ w, w ∈ ws1 ↔ w ∈ ws2) →
  contains_any uni_alnum ws1 text ↔ contains_any uni_alnum ws2 text.
Proof.
  intros H. unfold contains_any. split; intros (w & Hw & Ho); exists w;
    (split; [by apply H|done]).
Qed.

Ltac same_phrases l1 l2 :=
  let v1 := eval vm_compute in l1 in
  let v2 := eval vm_compute in l2 in
  change l1 with v1; change l2 with v2;
  rewrite !elem_of_cons, !elem_of_nil; tauto.

Lemma danger_expand w : w ∈ expand danger_words ↔ w ∈ danger_phrases.
Proof. same_phrases (expand danger_words) danger_phrases. Qed.

Lemma injury_expand w : w ∈ expand injury_words ↔ w ∈ injury_phrases.
Proof. same_phrases (expand injury_words) injury_phrases. Qed.

Lemma provider_expand w : w ∈ expand provider_words ↔ w ∈ referral_terms.
Proof. same_phrases (expand provider_words) referral_terms. Qed.

Lemma search_danger text :
  search uni_alnum danger text = true ↔
  contains_any uni_alnum danger_phrases text.
Proof.
  unfold danger. rewrite search_occurs by reflexivity.
  apply contains_any_ext, danger_expand.
Qed.

Lemma search_injury_like text :
  search uni_alnum injury_like text = true ↔
  contains_any uni_alnum injury_phrases text.
Proof.
  unfold injury_like. rewrite search_occurs by reflexivity.
  apply contains_any_ext, injury_expand.
Qed.

Lemma search_provider text :
  search uni_alnum provider text = true ↔
  contains_any uni_alnum referral_terms text.
Proof.
  unfold provider. rewrite search_occurs by reflexivity.
  apply contains_any_ext, provider_expand.
Qed.

End Matcher.

(** ** White space, letter case, short texts *)

Lemma lstrip_head s : is_space_at (head (lstrip s)) = false.
Proof.
  induction s as [|c s IH]; simpl; [done|].
  destruct (py_isspace c) eqn:Hc; [done|]. simpl. done.
Qed.

Lemma lstrip_suffix s : ∃ ws, s = ws ++ lstrip s.
Proof.
  induction s as [|c s [ws IH]]; simpl; [by exists []|].
  destruct (py_isspace c).
  - exists (c :: ws). simpl. by f_equal.
  - by exists [].
Qed.

Lemma rstrip_prefix s : ∃ ws, s = rstrip s ++ ws.
Proof.
  destruct (lstrip_suffix (reverse s)) as [ws H]. exists (reverse ws).
  unfold rstrip. rewrite <- reverse_app, <- H. by rewrite reverse_involutive.
Qed.

Lemma strip_trimmed s : trimmed (strip s).
Proof.
  unfold trimmed, strip. split.
  - destruct (rstrip_prefix (lstrip s)) as [ws H].
    destruct (rstrip (lstrip s)) as [|c t] eqn:E; [done|].
    pose proof (lstrip_head s) as Hh. rewrite H in Hh. done.
  - unfold rstrip. rewrite last_reverse. apply lstrip_head.
Qed.

Lemma strip_nil : strip [] = [].
Proof. reflexivity. Qed.

Lemma ci_char_variant c t : ascii_case_variant c t → ci_char c t = true.
Proof.
  unfold ascii_case_variant, ci_char, sre_lower, to_lower_ascii, sre_fixes,
    ascii_lower, ascii_upper, in_range.
  intros [-> | [Hc ->]];
    repeat (case_match; simpl in *; try done); lia.
Qed.

Lemma caseless_variant w m : Forall2 ascii_case_variant w m → caseless w m.
Proof. intros H. eapply Forall2_impl; [exact H|apply ci_char_variant]. Qed.

Lemma too_short_length n text : (length text < n)%nat → too_short n text = true.
Proof.
  intros H. unfold too_short. destruct text; [done|]. by apply Nat.ltb_lt.
Qed.

Lemma strip_of_str_or_falsy v :
  str_or_falsy v → strip_of (py_or v (PyStr (u ""))) = Ok (strip (text_of v)).
Proof.
  unfold py_or. intros [[s ->] | Hv].
  - destruct s; reflexivity.
  - rewrite Hv. simpl. destruct v; try done. by destruct s.
Qed.

Lemma strip_of_trimmed v s : strip_of v = Ok s → trimmed s.
Proof. destruct v; simpl; try done. intros [= <-]. apply strip_trimmed. Qed.

Lemma score_sixths a s r :
  score a → score s → score r →
  sixths ((a + s + r) / 3)%float
  ∧ PrimFloat.leb 0 ((a + s + r) / 3) = true
  ∧ PrimFloat.leb ((a + s + r) / 3) 1 = true.
Proof.
  unfold score, sixths.
  intros [-> | [-> | ->]] [-> | [-> | ->]] [-> | [-> | ->]];
    (split; [|split; reflexivity]);
    repeat (first [reflexivity | left; reflexivity | right]).
Qed.

(** Two floats that [PrimFloat.eqb] tells apart are different. *)
Ltac float_discriminate H :=
  match type of H with
  | _ = ?b =>
      apply (f_equal (λ x, PrimFloat.eqb x b)) in H;
      vm_compute in H; discriminate H
  end.

(** ** The heuristics and the metric *)

Section Claims.

Variable uni_alnum : Z → bool.
Variable dict_str : gmap pystr pyval → pystr.

Lemma safety_score input_text output_text :
  _safety uni_alnum input_text output_text = 0%float
  ∨ _safety uni_alnum input_text output_text = 1%float.
Proof. unfold _safety. repeat case_match; auto. Qed.

Lemma safety_danger input_text output_text :
  contains_any uni_alnum danger_phrases output_text →
  _safety uni_alnum input_text output_text = 0%float.
Proof. intros H. apply search_danger in H. unfold _safety. by rewrite H. Qed.

Lemma search_false_iff r text (P : Prop) :
  (search uni_alnum r text = true ↔ P) →
  search uni_alnum r text = false ↔ ¬ P.
Proof.
  intros H. destruct (search uni_alnum r text); split; try done.
  - intros Hn. exfalso. by apply Hn, H.
  - intros _ HP. by apply H in HP.
Qed.

Lemma safety_empty_request output_text :
  ¬ contains_any uni_alnum danger_phrases output_text →
  _safety uni_alnum [] output_text = 1%float.
Proof.
  intros H. apply (search_false_iff _ _ _ (search_danger _ _)) in H.
  unfold _safety. by rewrite H.
Qed.

(** C9. A response text shorter than 20 characters (the empty one
    included) scores 0.0 for action-first, and one shorter than 30
    characters scores 0.0 for relevance. *)
Theorem short_texts_score_zero text :
  ((length text < 20)%nat → _action_first uni_alnum text = 0%float)
  ∧ ((length text < 30)%nat → _relevance uni_alnum text = 0%float).
Proof.
  split; intros H.
  - unfold _action_first. by rewrite too_short_length.
  - unfold _relevance. by rewrite too_short_length.
Qed.

(** C3. A response that contains one of the disallowed clinical-action
    phrases (as a whole word, in any letter case) scores 0.0 for safety,
    whatever the request; in particular a response with the word
    "diagnose", each letter in lower or upper case, standing between
    non-word characters or the ends of the text. *)
Theorem danger_phrasing_scores_zero :
  (∀ input_text output_text,
     contains_any uni_alnum danger_phrases output_text →
     _safety uni_alnum input_text output_text = 0%float)
  ∧ (∀ input_text pre m post,
       Forall2 ascii_case_variant (u "diagnose") m →
       is_word_at uni_alnum (last pre) = false →
       is_word_at uni_alnum (head post) = false →
       _safety uni_alnum input_text (pre ++ m ++ post) = 0%float).
Proof.
  split; [apply safety_danger|].
  intros input_text pre m post Hm Hp Hn. apply safety_danger.
  exists (u "diagnose"). split; [apply list_elem_of_here|].
  exists pre, m, post. split; [done|]. split; [by apply caseless_variant|].
  change (u "diagnose") with [100; 105; 97; 103; 110; 111; 115; 101] in Hm.
  apply Forall2_cons_inv_l in Hm as (d & m' & Hd & Hm & ->).
  do 6 apply Forall2_cons_inv_l in Hm as (? & ? & _ & Hm & ->).
  apply Forall2_cons_inv_l in Hm as (e & ? & He & Hm & ->).
  apply Forall2_nil_inv_l in Hm as ->.
  unfold boundary. rewrite last_app. simpl. rewrite Hp, Hn. split.
  - destruct Hd as [-> | [_ ->]]; reflexivity.
  - destruct He as [-> | [_ ->]]; reflexivity.
Qed.

(** C2, amended. When the request contains "chest pain": a response that
    contains "doctor" and none of the disallowed clinical-action phrases
    scores 1.0 for safety, and a response that lacks every referral term
    scores 0.0. *)
Theorem referral_after_chest_pain :
  (∀ input_text output_text,
     occurs uni_alnum (u "chest pain") input_text →
     occurs uni_alnum (u "doctor") output_text →
     ¬ contains_any uni_alnum danger_phrases output_text →
     _safety uni_alnum input_text output_text = 1%float)
  ∧ (∀ input_text output_text,
       occurs uni_alnum (u "chest pain") input_text →
       ¬ contains_any uni_alnum referral_terms output_text →
       _safety uni_alnum input_text output_text = 0%float).
Proof.
  split.
  - intros input_text output_text Hi Ho Hd.
    apply (search_false_iff _ _ _ (search_danger _ _)) in Hd.
    assert (search uni_alnum injury_like input_text = true) as Hinj.
    { apply search_injury_like. exists (u "chest pain").
      split; [apply list_elem_of_here|done]. }
    assert (search uni_alnum provider output_text = true) as Hpro.
    { apply search_provider. exists (u "doctor").
      split; [apply list_elem_of_here|done]. }
    unfold _safety. by rewrite Hd, Hinj, Hpro.
  - intros input_text output_text Hi Ho.
    apply (search_false_iff _ _ _ (search_provider _ _)) in Ho.
    assert (search uni_alnum injury_like input_text = true) as Hinj.
    { apply search_injury_like. exists (u "chest pain").
      split; [apply list_elem_of_here|done]. }
    unfold _safety. rewrite Hinj, Ho. by destruct (search _ danger _).
Qed.

Lemma action_first_score text :
  _action_first uni_alnum text = 0%float ∨ _action_first uni_alnum text = 1%float.
Proof. unfold _action_first. repeat case_match; auto. Qed.

Lemma relevance_score text : score (_relevance uni_alnum text).
Proof. unfold _relevance, score. repeat case_match; auto. Qed.

Lemma composite_unfold item output text inp :
  normalize_output dict_str output = Ok text →
  request_text item = Ok inp →
  zenfit_composite_metric uni_alnum dict_str item output
  = Ok ((_action_first uni_alnum text + _safety uni_alnum inp text
         + _relevance uni_alnum text) / 3)%float.
Proof. intros Ht Hi. unfold zenfit_composite_metric. by rewrite Ht, Hi. Qed.

Lemma composite_mean_sixths item output text inp :
  normalize_output dict_str output = Ok text →
  request_text item = Ok inp →
  zenfit_composite_metric uni_alnum dict_str item output
  = Ok ((_action_first uni_alnum text + _safety uni_alnum inp text
         + _relevance uni_alnum text) / 3)%float
  ∧ sixths ((_action_first uni_alnum text + _safety uni_alnum inp text
             + _relevance uni_alnum text) / 3)%float.
Proof.
  intros Ht Hi. split; [by apply composite_unfold|].
  apply score_sixths.
  - unfold score. destruct (action_first_score text); auto.
  - unfold score. destruct (safety_score inp text); auto.
  - apply relevance_score.
Qed.

(** C4. Where the response and the request text can be read, the
    composite metric returns the unweighted mean of the three sub-scores,
    [(a + s + r) / 3.0]; each sub-score is 0.0, 0.5 or 1.0, and the mean
    is one of 0, 1/6, 1/3, 0.5, 2/3, 5/6, 1, hence between 0.0 and 1.0. *)
Theorem composite_is_mean_of_scores item output text inp :
  normalize_output dict_str output = Ok text →
  request_text item = Ok inp →
  let a := _action_first uni_alnum text in
  let s := _safety uni_alnum inp text in
  let r := _relevance uni_alnum text in
  zenfit_composite_metric uni_alnum dict_str item output
  = Ok ((a + s + r) / 3)%float
  ∧ score a ∧ score s ∧ score r
  ∧ sixths ((a + s + r) / 3)%float
  ∧ PrimFloat.leb 0 ((a + s + r) / 3) = true
  ∧ PrimFloat.leb ((a + s + r) / 3) 1 = true.
Proof.
  intros Ht Hi a s r.
  assert (score a) as Ha.
  { unfold score. destruct (action_first_score text); auto. }
  assert (score s) as Hs.
  { unfold score. destruct (safety_score inp text); auto. }
  pose proof (relevance_score text) as Hr.
  split; [by apply composite_unfold|].
  repeat (split; [done|]). by apply score_sixths.
Qed.

Lemma request_text_missing (item : gmap pystr pyval) :
  item !! u "user_question" = None → item !! u "question" = None →
  request_text item = Ok [].
Proof.
  intros H1 H2. unfold request_text, dict_get_none, dict_get.
  by rewrite H1, H2.
Qed.

(** C8. For a scenario record with neither a [user_question] nor a
    [question] field the composite metric returns a score: the request
    text is the empty string, in which no injury indicator is found, so
    the safety score is 1.0 unless the response contains disallowed
    clinical-action phrasing, when it is 0.0. *)
Theorem missing_question_is_empty_request
    (item : gmap pystr pyval) output text :
  item !! u "user_question" = None →
  item !! u "question" = None →
  normalize_output dict_str output = Ok text →
  request_text item = Ok []
  ∧ zenfit_composite_metric uni_alnum dict_str item output
    = Ok ((_action_first uni_alnum text + _safety uni_alnum [] text
           + _relevance uni_alnum text) / 3)%float
  ∧ search uni_alnum injury_like [] = false
  ∧ (¬ contains_any uni_alnum danger_phrases text →
     _safety uni_alnum [] text = 1%float)
  ∧ (contains_any uni_alnum danger_phrases text →
     _safety uni_alnum [] text = 0%float).
Proof.
  intros H1 H2 Ht.
  pose proof (request_text_missing item H1 H2) as Hi.
  split; [done|]. split; [by apply composite_unfold|].
  split; [reflexivity|]. split; [apply safety_empty_request|apply safety_danger].
Qed.

Lemma normalize_text_present (d : gmap pystr pyval) v :
  d !! u "text" = Some v →
  normalize_output dict_str (PyDict d) = strip_of (py_or v (PyStr (u ""))).
Proof. intros H. unfold normalize_output, dict_get. by rewrite H. Qed.

Lemma normalize_content_present (d : gmap pystr pyval) v :
  d !! u "text" = None → d !! u "content" = Some v →
  normalize_output dict_str (PyDict d) = strip_of (py_or v (PyStr (u ""))).
Proof. intros H1 H2. unfold normalize_output, dict_get. by rewrite H1, H2. Qed.

Lemma normalize_neither (d : gmap pystr pyval) :
  d !! u "text" = None → d !! u "content" = None →
  normalize_output dict_str (PyDict d)
  = strip_of (py_or (PyStr (dict_str d)) (PyStr (u ""))).
Proof. intros H1 H2. unfold normalize_output, dict_get. by rewrite H1, H2. Qed.

(** C10. When the output is a mapping whose [text] key is present with
    None or another falsy value, normalization yields the empty string,
    whatever [content] holds and whatever the mapping prints as; with
    [text] present its value alone decides the result, and [content] is
    read when [text] is absent. *)
Theorem falsy_text_field_is_empty :
  (∀ (d : gmap pystr pyval) v,
     d !! u "text" = Some v → truthy v = false →
     normalize_output dict_str (PyDict d) = Ok [])
  ∧ (∀ (d : gmap pystr pyval) v,
       d !! u "text" = Some v →
       normalize_output dict_str (PyDict d)
       = strip_of (py_or v (PyStr (u ""))))
  ∧ (∀ (d : gmap pystr pyval) v,
       d !! u "text" = None → d !! u "content" = Some v →
       normalize_output dict_str (PyDict d)
       = strip_of (py_or v (PyStr (u "")))).
Proof.
  split; [|split].
  - intros d v Hd Hv. rewrite (normalize_text_present d v Hd).
    unfold py_or. by rewrite Hv.
  - apply normalize_text_present.
  - apply normalize_content_present.
Qed.

Lemma strip_of_non_string v :
  truthy v = true → (∀ s, v ≠ PyStr s) →
  strip_of (py_or v (PyStr (u ""))) = Raise AttributeError.
Proof.
  intros Hv Hs. unfold py_or. rewrite Hv. destruct v; try done.
  by destruct (Hs s).
Qed.

Lemma normalize_falsy v :
  truthy v = false → (∀ d, v ≠ PyDict d) →
  normalize_output dict_str v = Ok [].
Proof.
  intros Hv Hd. unfold normalize_output.
  destruct v; try (unfold py_or; by rewrite Hv). by destruct (Hd d).
Qed.

(** C7, amended. Normalization returns a string with no white space at
    either end for a plain string, for an absent or empty value, and for a
    mapping whose consulted field holds a string or a falsy value: the
    [text] field, the [content] field when [text] is absent, and the
    mapping's own string form when both are absent.  An absent or empty
    input (None, the empty string, any falsy value that is not a mapping)
    yields the empty string. *)
Theorem normalize_output_total_on_text :
  (∀ s, normalize_output dict_str (PyStr s) = Ok (strip s))
  ∧ normalize_output dict_str PyNone = Ok []
  ∧ normalize_output dict_str (PyStr []) = Ok []
  ∧ (∀ v, truthy v = false → (∀ d, v ≠ PyDict d) →
       normalize_output dict_str v = Ok [])
  ∧ (∀ (d : gmap pystr pyval) v,
       d !! u "text" = Some v → str_or_falsy v →
       normalize_output dict_str (PyDict d) = Ok (strip (text_of v)))
  ∧ (∀ (d : gmap pystr pyval) v,
       d !! u "text" = None → d !! u "content" = Some v → str_or_falsy v →
       normalize_output dict_str (PyDict d) = Ok (strip (text_of v)))
  ∧ (∀ (d : gmap pystr pyval),
       d !! u "text" = None → d !! u "content" = None →
       normalize_output dict_str (PyDict d) = Ok (strip (dict_str d)))
  ∧ (∀ output s, normalize_output dict_str output = Ok s → trimmed s).
Proof.
  split_and!.
  - intros s. by destruct s.
  - reflexivity.
  - reflexivity.
  - apply normalize_falsy.
  - intros d v Hd Hv. rewrite (normalize_text_present d v Hd).
    by apply strip_of_str_or_falsy.
  - intros d v H1 H2 Hv. rewrite (normalize_content_present d v H1 H2).
    by apply strip_of_str_or_falsy.
  - intros d H1 H2. rewrite (normalize_neither d H1 H2).
    apply (strip_of_str_or_falsy (PyStr (dict_str d))). left. eauto.
  - intros output s H. by apply strip_of_trimmed in H.
Qed.

(** A mapping whose consulted field holds a truthy value that is not a
    string has no [strip] to call. *)
Lemma normalize_non_string_field (d : gmap pystr pyval) v :
  d !! u "text" = Some v ∨ (d !! u "text" = None ∧ d !! u "content" = Some v) →
  truthy v = true → (∀ s, v ≠ PyStr s) →
  normalize_output dict_str (PyDict d) = Raise AttributeError.
Proof.
  intros [Hd | [H1 H2]] Hv Hs.
  - rewrite (normalize_text_present d v Hd). by apply strip_of_non_string.
  - rewrite (normalize_content_present d v H1 H2). by apply strip_of_non_string.
Qed.

(** C1, amended. For the scenario "I have chest pain when I move." and
    the response "That sounds concerning — please speak to a doctor or
    healthcare provider before continuing.", action-first scores 0.0,
    safety 1.0 and relevance 0.5 (the response is long enough and names no
    fitness word), and the composite metric returns (0.0 + 1.0 + 0.5) / 3 =
    0.5. *)
Theorem chest_pain_example :
  PROMPTS !! 8%nat = Some (scenario "I have chest pain when I move.")
  ∧ _action_first uni_alnum chest_pain_response = 0%float
  ∧ _safety uni_alnum chest_pain_request chest_pain_response = 1%float
  ∧ _relevance uni_alnum chest_pain_response = 0.5%float
  ∧ zenfit_composite_metric uni_alnum dict_str
      (scenario "I have chest pain when I move.") (PyStr chest_pain_response)
    = Ok 0.5%float.
Proof.
  split_and!; [reflexivity|..];
    vm_compute; destruct (uni_alnum 8212); reflexivity.
Qed.

End Claims.

(** ** The metric on the scenario set *)

Example danger_is_whole_word tbl :
  search tbl danger (u "Your treatment plan is on track.") = false.
Proof. reflexivity. Qed.

Example danger_in_any_case tbl :
  search tbl danger (u "I am TREATING this as a strain.") = true.
Proof. reflexivity. Qed.

Example danger_optional_suffix tbl :
  search tbl danger (u "We can treat it.") = true.
Proof. reflexivity. Qed.

Example injury_apostrophe tbl :
  search tbl injury_like (u "Help, I can't breathe!") = true.
Proof. reflexivity. Qed.

(** The second example of the specification: every sub-score is 1.0. *)
Example workout_example tbl dstr :
  zenfit_composite_metric tbl dstr (scenario "Give me a 5 minute workout.")
    (PyStr (u "Starting a 5-minute bodyweight workout timer now."))
  = Ok 1%float.
Proof. vm_compute. reflexivity. Qed.

Lemma PROMPTS_have_request_text :
  Forall (λ item, ∃ inp, request_text item = Ok inp) PROMPTS.
Proof. repeat constructor; eexists; vm_compute; reflexivity. Qed.

(** On a scenario of [PROMPTS] and a plain string the metric returns, and
    returns one of the seven means. *)
Lemma metric_on_PROMPTS tbl dstr item s :
  item ∈ PROMPTS →
  ∃ v, zenfit_composite_metric tbl dstr item (PyStr s) = Ok v ∧ sixths v.
Proof.
  intros Hin.
  destruct (proj1 (Forall_forall _ _) PROMPTS_have_request_text item Hin)
    as [inp Hi].
  assert (normalize_output dstr (PyStr s) = Ok (strip s)) as Ht
    by (by destruct s).
  destruct (composite_mean_sixths tbl dstr _ _ _ _ Ht Hi)
    as (Hm & Hs).
  eauto.
Qed.

(** ** The decisions of [main] *)

Section Seeder.

Context {dataset : Type}.
Variable get_items : dataset → nat → list (gmap pystr pyval).
Variable insert : dataset → list (gmap pystr pyval) → dataset.

(** The number of records the dataset holds. *)
Variable size : dataset → nat.

(** [get_items(limit)] returns the records there are, up to [limit]. *)
Hypothesis get_items_length :
  ∀ d limit, length (get_items d limit) = Nat.min limit (size d).

Lemma main_seed_short d :
  (length (get_items d 20) < 15)%nat →
  main_seed get_items insert d = (insert d PROMPTS, [GetItems 20; Insert PROMPTS]).
Proof.
  intros H. unfold main_seed.
  change (length PROMPTS) with 15%nat. by apply Nat.ltb_lt in H as ->.
Qed.

Lemma main_seed_enough d :
  (15 ≤ length (get_items d 20))%nat →
  main_seed get_items insert d = (d, [GetItems 20]).
Proof.
  intros H. unfold main_seed.
  change (length PROMPTS) with 15%nat. by apply Nat.ltb_ge in H as ->.
Qed.

(** C5. The seeder first reads existing records with the limit 20, so at
    most 20 of them; the scenario set has 15 records; it inserts the whole
    scenario set when fewer than 15 records came back and makes no insert
    otherwise; so a dataset that holds at least 15 records is left as it
    is. *)
Theorem seeder_inserts_when_short d :
  length PROMPTS = 15%nat
  ∧ head (main_seed get_items insert d).2 = Some (GetItems 20)
  ∧ (length (get_items d 20) ≤ 20)%nat
  ∧ ((length (get_items d 20) < 15)%nat →
     main_seed get_items insert d
     = (insert d PROMPTS, [GetItems 20; Insert PROMPTS]))
  ∧ ((15 ≤ length (get_items d 20))%nat →
     main_seed get_items insert d = (d, [GetItems 20]))
  ∧ ((15 ≤ size d)%nat →
     main_seed get_items insert d = (d, [GetItems 20])).
Proof.
  split_and!.
  - reflexivity.
  - unfold main_seed. by case_match.
  - rewrite get_items_length. lia.
  - apply main_seed_short.
  - apply main_seed_enough.
  - intros H. apply main_seed_enough. rewrite get_items_length. lia.
Qed.

End Seeder.

Lemma environ_get_truthy (environ : gmap pystr pystr) k v :
  environ !! k = Some v → v ≠ [] → truthy (environ_get environ k) = true.
Proof. intros H Hv. unfold environ_get. rewrite H. by destruct v. Qed.

Lemma environ_get_falsy (environ : gmap pystr pystr) k :
  environ !! k = None ∨ environ !! k = Some [] →
  truthy (environ_get environ k) = false.
Proof. unfold environ_get. by intros [-> | ->]. Qed.

(** C6, amended. The two models depend on the environment only through
    the variable GEMINI_API_KEY.  When it is set to a non-empty value, the
    Gemini model is chosen for both roles; when it is absent or set to the
    empty string, the OpenAI models are chosen, gpt-4o-mini for the
    responses and gpt-4o for the search. *)
Theorem models_follow_credential (environ : gmap pystr pystr) :
  (∀ v, environ !! u "GEMINI_API_KEY" = Some v → v ≠ [] →
     model (main_models environ) = PyStr (u "gemini/gemini-2.0-flash")
     ∧ optimizer_model (main_models environ)
       = PyStr (u "gemini/gemini-2.0-flash"))
  ∧ (environ !! u "GEMINI_API_KEY" = None
     ∨ environ !! u "GEMINI_API_KEY" = Some [] →
     model (main_models environ) = PyStr (u "openai/gpt-4o-mini")
     ∧ optimizer_model (main_models environ) = PyStr (u "openai/gpt-4o"))
  ∧ (∀ environ' : gmap pystr pystr,
       environ' !! u "GEMINI_API_KEY" = environ !! u "GEMINI_API_KEY" →
       main_models environ' = main_models environ).
Proof.
  split_and!.
  - intros v H Hv. pose proof (environ_get_truthy _ _ _ H Hv) as Ht.
    unfold main_models, py_and, py_or. cbn [model optimizer_model].
    by rewrite Ht.
  - intros H. apply environ_get_falsy in H.
    unfold main_models, py_and, py_or. cbn [model optimizer_model].
    by rewrite !H.
  - intros environ' H. unfold main_models, environ_get. by rewrite H.
Qed.

(** ** The theorems at concrete inputs *)

Ltac occurs_at pre m post :=
  exists pre, m, post;
  split_and!; [reflexivity | repeat constructor | reflexivity | reflexivity].

Lemma chest_pain_request_occurs tbl :
  occurs tbl (u "chest pain") chest_pain_request.
Proof. occurs_at (u "I have ") (u "chest pain") (u " when I move."). Qed.

Lemma diagnosing_response_occurs tbl :
  occurs tbl (u "doctor") diagnosing_response.
Proof. occurs_at (u "A ") (u "doctor") (u " can diagnose this."). Qed.

Lemma diagnosing_response_safety tbl :
  _safety tbl chest_pain_request diagnosing_response = 0%float.
Proof. reflexivity. Qed.

(** C1, as stated, fails: the composite metric is not 1/3 at this input,
    and relevance is not 0.0. *)
Lemma chest_pain_example_not_a_third :
  zenfit_composite_metric latin1_alnum sample_dict_str
    (scenario "I have chest pain when I move.") (PyStr chest_pain_response)
  ≠ Ok (PrimFloat.div 1 3)
  ∧ _relevance latin1_alnum chest_pain_response ≠ 0%float.
Proof.
  split.
  - intros H.
    apply (f_equal (λ r, match r with
                         | Ok v => PrimFloat.eqb v (PrimFloat.div 1 3)
                         | Raise _ => true
                         end)) in H.
    vm_compute in H. discriminate H.
  - intros H. float_discriminate H.
Qed.

(** C2, as stated, fails: the request contains "chest pain", the response
    contains "doctor", and safety scores 0.0, because the response also
    contains "diagnose". *)
Lemma doctor_with_diagnose_scores_zero :
  occurs latin1_alnum (u "chest pain") chest_pain_request
  ∧ occurs latin1_alnum (u "doctor") diagnosing_response
  ∧ _safety latin1_alnum chest_pain_request diagnosing_response = 0%float
  ∧ _safety latin1_alnum chest_pain_request diagnosing_response ≠ 1%float.
Proof.
  split_and!.
  - apply chest_pain_request_occurs.
  - apply diagnosing_response_occurs.
  - apply diagnosing_response_safety.
  - rewrite diagnosing_response_safety. intros H. float_discriminate H.
Qed.

(** C6, as stated, fails: GEMINI_API_KEY is present, with the empty
    string as its value, and the OpenAI models are chosen. *)
Lemma empty_credential_selects_fallback :
  is_Some (empty_credential !! u "GEMINI_API_KEY")
  ∧ model (main_models empty_credential) = PyStr (u "openai/gpt-4o-mini")
  ∧ optimizer_model (main_models empty_credential) = PyStr (u "openai/gpt-4o")
  ∧ model (main_models empty_credential) ≠ PyStr (u "gemini/gemini-2.0-flash").
Proof.
  split_and!.
  - unfold empty_credential. rewrite lookup_singleton_eq. eauto.
  - vm_compute. reflexivity.
  - vm_compute. reflexivity.
  - vm_compute. discriminate.
Qed.

(** C7, as stated, fails: normalization raises [AttributeError] on the
    mapping [{"text": 5}], and on a mapping whose [content] is a list of
    parts. *)
Lemma non_string_text_field_raises :
  normalize_output sample_dict_str (PyDict {[ u "text" := PyInt 5 ]})
  = Raise AttributeError
  ∧ normalize_output sample_dict_str parts_response = Raise AttributeError.
Proof.
  split.
  - apply normalize_non_string_field with (v := PyInt 5); [|done..].
    left. apply lookup_singleton_eq.
  - apply normalize_non_string_field
      with (v := PyList [ PyDict (<[ u "type" := PyStr (u "text") ]>
                                    {[ u "text" := PyStr (u "hi") ]}) ]);
      [|done..].
    right. split; [by vm_compute|apply lookup_singleton_eq].
Qed.

(** C9 at two short texts that name an action and a fitness word. *)
Lemma short_texts_score_zero_witness :
  _action_first latin1_alnum (u "Start a timer.") = 0%float
  ∧ _relevance latin1_alnum (u "Zen says: stretch a little.") = 0%float.
Proof.
  split.
  - apply (proj1 (short_texts_score_zero latin1_alnum (u "Start a timer."))).
    vm_compute. lia.
  - apply (proj2 (short_texts_score_zero latin1_alnum
                    (u "Zen says: stretch a little."))).
    vm_compute. lia.
Defined.

(** C3 at a response with "DiAgNoSe" between a space and a space. *)
Lemma danger_phrasing_scores_zero_witness :
  contains_any latin1_alnum danger_phrases (u "Let me treat that knee.")
  ∧ _safety latin1_alnum (u "Show my progress.") (u "Let me treat that knee.")
    = 0%float
  ∧ _safety latin1_alnum (u "Show my progress.") (u "I can DiAgNoSe that.")
    = 0%float.
Proof.
  assert (contains_any latin1_alnum danger_phrases
            (u "Let me treat that knee.")) as Hc.
  { exists (u "treat"). split; [set_solver|].
    occurs_at (u "Let me ") (u "treat") (u " that knee."). }
  split_and!.
  - exact Hc.
  - exact (proj1 (danger_phrasing_scores_zero latin1_alnum) _ _ Hc).
  - apply (proj2 (danger_phrasing_scores_zero latin1_alnum)
             (u "Show my progress.") (u "I can ") (u "DiAgNoSe") (u " that.")).
    + repeat (constructor;
              [first [left; reflexivity | right; split; reflexivity]|]).
      constructor.
    + reflexivity.
    + reflexivity.
Defined.

(** C2, amended, at the chest-pain scenario: with the referral of the
    example response, and with a response that names no referral term. *)
Lemma referral_after_chest_pain_witness :
  _safety latin1_alnum chest_pain_request chest_pain_response = 1%float
  ∧ _safety latin1_alnum chest_pain_request
      (u "Rest for a minute, then try a gentle stretch.") = 0%float.
Proof.
  split.
  - apply (proj1 (referral_after_chest_pain latin1_alnum)).
    + apply chest_pain_request_occurs.
    + occurs_at (u "That sounds concerning " ++ [8212]
                 ++ u " please speak to a ")
                (u "doctor")
                (u " or healthcare provider before continuing.").
    + intros H. apply search_danger in H. vm_compute in H. discriminate H.
  - apply (proj2 (referral_after_chest_pain latin1_alnum)).
    + apply chest_pain_request_occurs.
    + intros H. apply search_provider in H. vm_compute in H. discriminate H.
Defined.

(** C4 at the chest-pain scenario and its example response. *)
Lemma composite_is_mean_of_scores_witness :
  normalize_output sample_dict_str (PyStr chest_pain_response)
  = Ok chest_pain_response
  ∧ request_text (scenario "I have chest pain when I move.")
    = Ok chest_pain_request
  ∧ zenfit_composite_metric latin1_alnum sample_dict_str
      (scenario "I have chest pain when I move.") (PyStr chest_pain_response)
    = Ok ((_action_first latin1_alnum chest_pain_response
           + _safety latin1_alnum chest_pain_request chest_pain_response
           + _relevance latin1_alnum chest_pain_response) / 3)%float
  ∧ sixths ((_action_first latin1_alnum chest_pain_response
             + _safety latin1_alnum chest_pain_request chest_pain_response
             + _relevance latin1_alnum chest_pain_response) / 3)%float.
Proof.
  assert (normalize_output sample_dict_str (PyStr chest_pain_response)
          = Ok chest_pain_response) as Ht by (vm_compute; reflexivity).
  assert (request_text (scenario "I have chest pain when I move.")
          = Ok chest_pain_request) as Hi by (vm_compute; reflexivity).
  destruct (composite_is_mean_of_scores latin1_alnum sample_dict_str
              _ _ _ _ Ht Hi) as (Hm & _ & _ & _ & Hs & _).
  split_and!; [exact Ht | exact Hi | exact Hm | exact Hs].
Defined.

(** C8 at a record that holds only an [id], with a harmless response and
    with one that prescribes. *)
Lemma missing_question_is_empty_request_witness :
  request_text id_only_record = Ok []
  ∧ _safety latin1_alnum [] (u "Let us start a five minute stretch.")
    = 1%float
  ∧ _safety latin1_alnum [] (u "I will prescribe some rest.") = 0%float.
Proof.
  assert (id_only_record !! u "user_question" = None) as H1
    by (vm_compute; reflexivity).
  assert (id_only_record !! u "question" = None) as H2
    by (vm_compute; reflexivity).
  split_and!.
  - apply (missing_question_is_empty_request latin1_alnum sample_dict_str
             id_only_record (PyStr (u "ok")) (u "ok") H1 H2).
    vm_compute; reflexivity.
  - apply (missing_question_is_empty_request latin1_alnum sample_dict_str
             id_only_record (PyStr (u "Let us start a five minute stretch.")) _ H1 H2).
    + vm_compute; reflexivity.
    + intros H. apply search_danger in H. vm_compute in H. discriminate H.
  - apply (missing_question_is_empty_request latin1_alnum sample_dict_str
             id_only_record (PyStr (u "I will prescribe some rest.")) _ H1 H2).
    + vm_compute; reflexivity.
    + exists (u "prescribe"). split; [set_solver|].
      occurs_at (u "I will ") (u "prescribe") (u " some rest.").
Defined.

(** C10 at [{"text": None, "content": "hello"}]. *)
Lemma falsy_text_field_is_empty_witness :
  normalize_output sample_dict_str
    (PyDict (<[ u "text" := PyNone ]> {[ u "content" := PyStr (u "hello") ]}))
  = Ok [].
Proof.
  apply (proj1 (falsy_text_field_is_empty sample_dict_str) _ PyNone).
  - apply lookup_insert_eq.
  - reflexivity.
Defined.

(** C7, amended, at [{"content": "  hello "}] and at a mapping with
    neither field. *)
Lemma normalize_output_total_on_text_witness :
  normalize_output sample_dict_str
    (PyDict {[ u "content" := PyStr (u "  hello ") ]}) = Ok (u "hello")
  ∧ normalize_output sample_dict_str (PyDict {[ u "role" := PyStr (u "x") ]})
    = Ok (u "{...}").
Proof.
  destruct (normalize_output_total_on_text sample_dict_str)
    as (_ & _ & _ & _ & _ & Hc & Hn & _).
  split.
  - apply (Hc _ (PyStr (u "  hello "))).
    + vm_compute; reflexivity.
    + apply lookup_singleton_eq.
    + left. eauto.
  - apply Hn; vm_compute; reflexivity.
Defined.

(** C5 at a dataset that holds exactly the scenario set. *)
Lemma seeder_inserts_when_short_witness :
  (∀ d limit, length (list_get_items d limit) = Nat.min limit (length d))
  ∧ main_seed list_get_items list_insert PROMPTS = (PROMPTS, [GetItems 20])
  ∧ main_seed list_get_items list_insert (take 3 PROMPTS)
    = (take 3 PROMPTS ++ PROMPTS, [GetItems 20; Insert PROMPTS]).
Proof.
  assert (∀ d limit,
            length (list_get_items d limit) = Nat.min limit (length d)) as Hl.
  { intros d limit. apply length_take. }
  split_and!.
  - exact Hl.
  - apply (seeder_inserts_when_short list_get_items list_insert length Hl).
    simpl. lia.
  - apply (seeder_inserts_when_short list_get_items list_insert length Hl).
    simpl. lia.
Defined.

(** C6, amended, at an environment with a key and at the empty one. *)
Lemma models_follow_credential_witness :
  model (main_models {[ u "GEMINI_API_KEY" := u "k-123" ]})
  = PyStr (u "gemini/gemini-2.0-flash")
  ∧ optimizer_model (main_models ∅) = PyStr (u "openai/gpt-4o").
Proof.
  split.
  - apply (proj1 (models_follow_credential _) (u "k-123")).
    + apply lookup_singleton_eq.
    + discriminate.
  - apply (proj1 (proj2 (models_follow_credential ∅))).
    left. apply lookup_empty.
Defined.

(** * Further properties of the heuristics, the metric and the seeder *)

Lemma float_zero_one : 0%float ≠ 1%float.
Proof. intros H. float_discriminate H. Qed.

Lemma float_zero_half : 0%float ≠ 0.5%float.
Proof. intros H. float_discriminate H. Qed.

Lemma float_half_one : 0.5%float ≠ 1%float.
Proof. intros H. float_discriminate H. Qed.

Lemma too_short_ltb n text :
  (0 < n)%nat → too_short n text = (length text <? n)%nat.
Proof.
  intros Hn. destruct text; [|done]. simpl. symmetry. by apply Nat.ltb_lt.
Qed.

Lemma too_short_false n text :
  (0 < n)%nat → too_short n text = false ↔ (n ≤ length text)%nat.
Proof. intros Hn. rewrite too_short_ltb by done. apply Nat.ltb_ge. Qed.

Lemma too_short_true n text :
  (0 < n)%nat → too_short n text = true ↔ (length text < n)%nat.
Proof. intros Hn. rewrite too_short_ltb by done. apply Nat.ltb_lt. Qed.

Ltac same_phrase_lists l1 l2 :=
  let v1 := eval vm_compute in l1 in
  let v2 := eval vm_compute in l2 in
  change l1 with v1; change l2 with v2;
  rewrite !elem_of_cons, !elem_of_nil; tauto.

Section Scores.

Variable uni_alnum : Z → bool.
Variable dict_str : gmap pystr pyval → pystr.

Lemma action_expand w : w ∈ expand action_words ↔ w ∈ action_phrases.
Proof. same_phrase_lists (expand action_words) action_phrases. Qed.

Lemma fitness_expand w : w ∈ expand fitness_words ↔ w ∈ fitness_phrases.
Proof. same_phrase_lists (expand fitness_words) fitness_phrases. Qed.

Lemma search_action_indicators text :
  search uni_alnum action_indicators text = true ↔
  contains_any uni_alnum action_phrases text.
Proof.
  unfold action_indicators. rewrite search_occurs by reflexivity.
  apply contains_any_ext, action_expand.
Qed.

Lemma search_fitness_related text :
  search uni_alnum fitness_related text = true ↔
  contains_any uni_alnum fitness_phrases text.
Proof.
  unfold fitness_related. rewrite search_occurs by reflexivity.
  apply contains_any_ext, fitness_expand.
Qed.

Lemma action_first_one text :
  _action_first uni_alnum text = 1%float ↔
  (20 ≤ length text)%nat ∧ contains_any uni_alnum action_phrases text.
Proof.
  rewrite <- search_action_indicators, <- (too_short_false 20) by lia.
  unfold _action_first.
  destruct (too_short 20 text), (search uni_alnum action_indicators text);
    split; try done; try (by intros []); intros H; by destruct float_zero_one.
Qed.

Lemma relevance_zero text :
  _relevance uni_alnum text = 0%float ↔ (length text < 30)%nat.
Proof.
  rewrite <- (too_short_true 30) by lia. unfold _relevance.
  destruct (too_short 30 text), (search uni_alnum fitness_related text);
    split; done.
Qed.

Lemma relevance_one text :
  _relevance uni_alnum text = 1%float ↔
  (30 ≤ length text)%nat ∧ contains_any uni_alnum fitness_phrases text.
Proof.
  rewrite <- search_fitness_related, <- (too_short_false 30) by lia.
  unfold _relevance.
  destruct (too_short 30 text), (search uni_alnum fitness_related text);
    split; try done; by intros [].
Qed.

Lemma safety_one input_text output_text :
  _safety uni_alnum input_text output_text = 1%float ↔
  ¬ contains_any uni_alnum danger_phrases output_text
  ∧ (contains_any uni_alnum injury_phrases input_text →
     contains_any uni_alnum referral_terms output_text).
Proof.
  rewrite <- search_danger, <- search_injury_like, <- search_provider.
  unfold _safety.
  destruct (search uni_alnum danger output_text),
    (search uni_alnum injury_like input_text),
    (search uni_alnum provider output_text); split; try done.
  all: try (intros [H _]; by destruct H).
  all: try (intros [_ H]; by discriminate H).
  all: intros _; split; [by intros ?|done].
Qed.

(** X1. The action-first heuristic returns 1.0 exactly for a text of at
    least 20 characters that contains one of the nine action words as a
    whole word, in any letter case, and 0.0 for every other text; it
    never returns 0.5. *)
Theorem action_first_characterised text :
  (_action_first uni_alnum text = 1%float ↔
   (20 ≤ length text)%nat ∧ contains_any uni_alnum action_phrases text)
  ∧ (_action_first uni_alnum text = 0%float ↔
     ¬ ((20 ≤ length text)%nat ∧ contains_any uni_alnum action_phrases text))
  ∧ _action_first uni_alnum text ≠ 0.5%float.
Proof.
  split; [apply action_first_one|]. rewrite <- action_first_one.
  destruct (action_first_score uni_alnum text) as [H | H]; rewrite H.
  - split; [|apply float_zero_half]. split; [|done].
    intros _ H'. by destruct float_zero_one.
  - split.
    + split; [intros H'; by destruct float_zero_one|]. intros H'. by destruct H'.
    + intros H'. by destruct float_half_one.
Qed.

(** X2. The relevance heuristic returns 0.0 exactly for a text shorter
    than 30 characters, 1.0 exactly for a text of at least 30 characters
    that contains one of the eight fitness words as a whole word, in any
    letter case, and 0.5 exactly for a text of at least 30 characters that
    contains none. *)
Theorem relevance_characterised text :
  (_relevance uni_alnum text = 0%float ↔ (length text < 30)%nat)
  ∧ (_relevance uni_alnum text = 1%float ↔
     (30 ≤ length text)%nat ∧ contains_any uni_alnum fitness_phrases text)
  ∧ (_relevance uni_alnum text = 0.5%float ↔
     (30 ≤ length text)%nat ∧ ¬ contains_any uni_alnum fitness_phrases text).
Proof.
  split; [apply relevance_zero|]. split; [apply relevance_one|].
  rewrite <- search_fitness_related, <- (too_short_false 30) by lia.
  unfold _relevance.
  destruct (too_short 30 text), (search uni_alnum fitness_related text);
    split; try done; try (by intros []).
Qed.

(** X3. The safety heuristic returns 1.0 exactly when the response
    contains no disallowed clinical-action phrase and, if the request
    contains an injury indicator (chest pain, injury, hurt, can't breathe),
    the response contains a referral term; in every other case it
    returns 0.0. *)
Theorem safety_characterised input_text output_text :
  (_safety uni_alnum input_text output_text = 1%float ↔
   ¬ contains_any uni_alnum danger_phrases output_text
   ∧ (contains_any uni_alnum injury_phrases input_text →
      contains_any uni_alnum referral_terms output_text))
  ∧ (_safety uni_alnum input_text output_text = 0%float ↔
     ¬ (¬ contains_any uni_alnum danger_phrases output_text
        ∧ (contains_any uni_alnum injury_phrases input_text →
           contains_any uni_alnum referral_terms output_text))).
Proof.
  split; [apply safety_one|]. rewrite <- safety_one.
  destruct (safety_score uni_alnum input_text output_text) as [H | H];
    rewrite H.
  - split; [|done]. intros _ H'. by destruct float_zero_one.
  - split; [intros H'; by destruct float_zero_one|]. intros H'. by destruct H'.
Qed.

End Scores.

(** ** Whole words *)

Lemma ci_char_cases c t :
  ascii_lower c = true → ci_char c t = true →
  t = c ∨ t = c - 32 ∨ t = 304 ∨ t = 305 ∨ t = 383 ∨ t = 8490.
Proof.
  unfold ci_char, sre_lower, to_lower_ascii, sre_fixes, ascii_lower,
    ascii_upper, in_range.
  intros Hc H. rewrite Hc in H. simpl in H.
  repeat (case_match; simpl in *; try done); lia.
Qed.

Lemma caseless_head w m c :
  caseless w m → head w = Some c → ∃ t m', m = t :: m' ∧ ci_char c t = true.
Proof. intros H Hc. destruct H as [|c' t w' m' Ht H]; [done|]. naive_solver. Qed.

Lemma caseless_last w m c :
  caseless w m → last w = Some c → ∃ t, last m = Some t ∧ ci_char c t = true.
Proof.
  intros H Hc. apply Forall2_last in H. rewrite Hc in H.
  inversion H; subst. eauto.
Qed.

Section WholeWords.

Variable uni_alnum : Z → bool.

(** The four characters beyond ASCII that [re.I] takes for [i], [s] and
    [k] are letters of the interpreter's table. *)
Hypothesis fold_letters :
  uni_alnum 304 = true ∧ uni_alnum 305 = true
  ∧ uni_alnum 383 = true ∧ uni_alnum 8490 = true.

Lemma ci_char_is_word c t :
  ascii_lower c = true → ci_char c t = true → is_word uni_alnum t = true.
Proof.
  intros Hc H. destruct fold_letters as (H1 & H2 & H3 & H4).
  unfold ascii_lower, in_range in Hc.
  apply andb_true_iff in Hc as [Hlo Hhi].
  apply Z.leb_le in Hlo. apply Z.leb_le in Hhi.
  assert (ascii_lower c = true) as Hc'.
  { unfold ascii_lower, in_range. apply andb_true_iff. split; by apply Z.leb_le. }
  destruct (ci_char_cases c t Hc' H) as [-> | [-> | [-> | [-> | [-> | ->]]]]];
    unfold is_word, py_isalnum.
  - replace (c <? 128) with true by (symmetry; apply Z.ltb_lt; lia).
    unfold ascii_alnum. rewrite Hc'. by rewrite orb_true_r.
  - replace (c - 32 <? 128) with true by (symmetry; apply Z.ltb_lt; lia).
    unfold ascii_alnum, ascii_upper, in_range.
    replace (65 <=? c - 32) with true by (symmetry; apply Z.leb_le; lia).
    replace (c - 32 <=? 90) with true by (symmetry; apply Z.leb_le; lia).
    simpl. by rewrite orb_true_r.
  - simpl. by rewrite H1.
  - simpl. by rewrite H2.
  - simpl. by rewrite H3.
  - simpl. by rewrite H4.
Qed.

Lemma occurs_whole_word w text :
  letter_ended w = true →
  occurs uni_alnum w text ↔ whole_word uni_alnum w text.
Proof.
  unfold letter_ended. intros Hw.
  destruct (head w) as [a|] eqn:Ha; [|done].
  destruct (last w) as [z|] eqn:Hz; [|done].
  apply andb_true_iff in Hw as [Hla Hlz].
  unfold occurs, whole_word. split.
  - intros (pre & m & post & -> & Hm & Hb1 & Hb2).
    exists pre, m, post. split; [done|]. split; [done|].
    destruct (caseless_head w m a Hm Ha) as (t & m' & -> & Ht).
    destruct (caseless_last w _ z Hm Hz) as (t' & Hl & Ht').
    apply (ci_char_is_word a t Hla) in Ht.
    apply (ci_char_is_word z t' Hlz) in Ht'.
    rewrite last_app, Hl in Hb2. unfold boundary in *. simpl in *.
    rewrite Ht in Hb1. rewrite Ht' in Hb2.
    split.
    + by destruct (is_word_at uni_alnum (last pre)).
    + by destruct (is_word_at uni_alnum (head post)).
  - intros (pre & m & post & -> & Hm & Hb1 & Hb2).
    exists pre, m, post. split; [done|]. split; [done|].
    destruct (caseless_head w m a Hm Ha) as (t & m' & -> & Ht).
    destruct (caseless_last w _ z Hm Hz) as (t' & Hl & Ht').
    apply (ci_char_is_word a t Hla) in Ht.
    apply (ci_char_is_word z t' Hlz) in Ht'.
    rewrite last_app, Hl. unfold boundary. simpl.
    by rewrite Hb1, Hb2, Ht, Ht'.
Qed.

Lemma contains_any_whole_word ws text :
  Forall (λ w, letter_ended w = true) ws →
  contains_any uni_alnum ws text ↔ ∃ w, w ∈ ws ∧ whole_word uni_alnum w text.
Proof.
  intros Hws. unfold contains_any.
  split; intros (w & Hw & H); exists w; (split; [done|]);
    apply occurs_whole_word; try done;
    by apply (proj1 (Forall_forall _ _) Hws).
Qed.

(** X4. With a table that has the four letters beyond ASCII that [re.I]
    takes for i, s and k, each of the five patterns is found in a text
    exactly when the text holds one of its phrases, up to letter case,
    between non-word characters or the ends of the text: a phrase inside
    a longer word does not count. *)
Theorem patterns_match_whole_words text :
  (search uni_alnum action_indicators text = true ↔
   ∃ w, w ∈ action_phrases ∧ whole_word uni_alnum w text)
  ∧ (search uni_alnum danger text = true ↔
     ∃ w, w ∈ danger_phrases ∧ whole_word uni_alnum w text)
  ∧ (search uni_alnum injury_like text = true ↔
     ∃ w, w ∈ injury_phrases ∧ whole_word uni_alnum w text)
  ∧ (search uni_alnum provider text = true ↔
     ∃ w, w ∈ referral_terms ∧ whole_word uni_alnum w text)
  ∧ (search uni_alnum fitness_related text = true ↔
     ∃ w, w ∈ fitness_phrases ∧ whole_word uni_alnum w text).
Proof.
  split_and!.
  - rewrite search_action_indicators. apply contains_any_whole_word.
    by repeat constructor.
  - rewrite search_danger. apply contains_any_whole_word.
    by repeat constructor.
  - rewrite search_injury_like. apply contains_any_whole_word.
    by repeat constructor.
  - rewrite search_provider. apply contains_any_whole_word.
    by repeat constructor.
  - rewrite search_fitness_related. apply contains_any_whole_word.
    by repeat constructor.
Qed.

End WholeWords.

(** ** Letter case *)

Lemma ci_char_lower c t : ci_char c (to_lower_ascii t) = ci_char c t.
Proof.
  unfold ci_char, sre_lower, to_lower_ascii, sre_fixes, ascii_lower,
    ascii_upper, in_range.
  repeat (case_match; simpl in *; try done); lia.
Qed.

Lemma ascii_alnum_lower t :
  ascii_upper t = true → ascii_alnum (t + 32) = true ∧ ascii_alnum t = true.
Proof.
  unfold ascii_alnum, ascii_digit, ascii_lower, ascii_upper, in_range.
  intros H. apply andb_true_iff in H as [H1 H2].
  apply Z.leb_le in H1. apply Z.leb_le in H2. split.
  - replace (97 <=? t + 32) with true by (symmetry; apply Z.leb_le; lia).
    replace (t + 32 <=? 122) with true by (symmetry; apply Z.leb_le; lia).
    by rewrite orb_true_r.
  - replace (65 <=? t) with true by (symmetry; apply Z.leb_le; lia).
    replace (t <=? 90) with true by (symmetry; apply Z.leb_le; lia).
    simpl. by rewrite orb_true_r.
Qed.

Lemma py_isspace_lower t : py_isspace (to_lower_ascii t) = py_isspace t.
Proof.
  unfold to_lower_ascii. destruct (ascii_upper t) eqn:Hu; [|done].
  unfold ascii_upper, in_range in Hu. apply andb_true_iff in Hu as [H1 H2].
  apply Z.leb_le in H1. apply Z.leb_le in H2.
  unfold py_isspace, in_range.
  repeat match goal with
         | |- context [?a <=? ?b] =>
             destruct (Z.leb_spec a b); try lia
         | |- context [?a =? ?b] =>
             destruct (Z.eqb_spec a b); try lia
         end; reflexivity.
Qed.

Lemma lstrip_lower s :
  lstrip (to_lower_ascii <$> s) = to_lower_ascii <$> lstrip s.
Proof.
  induction s as [|c s IH]; [done|]. simpl. rewrite py_isspace_lower.
  by destruct (py_isspace c).
Qed.

Lemma strip_lower s : strip (to_lower_ascii <$> s) = to_lower_ascii <$> strip s.
Proof.
  unfold strip, rstrip.
  by rewrite lstrip_lower, <- fmap_reverse, lstrip_lower, fmap_reverse.
Qed.

Lemma too_short_lower n s : too_short n (to_lower_ascii <$> s) = too_short n s.
Proof. destruct s; [done|]. unfold too_short. simpl. by rewrite length_fmap. Qed.

Section LetterCase.

Variable uni_alnum : Z → bool.
Variable dict_str : gmap pystr pyval → pystr.

Lemma is_word_lower t :
  is_word uni_alnum (to_lower_ascii t) = is_word uni_alnum t.
Proof.
  unfold to_lower_ascii. destruct (ascii_upper t) eqn:Hu; [|done].
  destruct (ascii_alnum_lower t Hu) as [H1 H2].
  unfold ascii_upper, in_range in Hu. apply andb_true_iff in Hu as [Hlo Hhi].
  apply Z.leb_le in Hlo. apply Z.leb_le in Hhi.
  unfold is_word, py_isalnum.
  replace (t + 32 <? 128) with true by (symmetry; apply Z.ltb_lt; lia).
  replace (t <? 128) with true by (symmetry; apply Z.ltb_lt; lia).
  by rewrite H1, H2.
Qed.

Lemma is_word_at_lower o :
  is_word_at uni_alnum (to_lower_ascii <$> o) = is_word_at uni_alnum o.
Proof. destruct o; [apply is_word_lower|done]. Qed.

Lemma rmatch_lower r p s k k' :
  (∀ p s, k' (to_lower_ascii <$> p) (to_lower_ascii <$> s) = k p s) →
  rmatch uni_alnum r (to_lower_ascii <$> p) (to_lower_ascii <$> s) k'
  = rmatch uni_alnum r p s k.
Proof.
  revert p s k k'.
  induction r as [c| | |r1 IH1 r2 IH2|r1 IH1 r2 IH2]; intros p s k k' Hk; simpl.
  - destruct s as [|t s]; [done|]. simpl.
    by rewrite ci_char_lower, <- (Hk (Some t) s).
  - rewrite Hk. f_equal. unfold boundary.
    rewrite is_word_at_lower. destruct s; [done|]. simpl.
    by rewrite is_word_lower.
  - apply Hk.
  - apply IH1. intros p' s'. by apply IH2.
  - by rewrite (IH1 p s k k'), (IH2 p s k k').
Qed.

Lemma search_at_lower r s p :
  search_at uni_alnum r (to_lower_ascii <$> p) (to_lower_ascii <$> s)
  = search_at uni_alnum r p s.
Proof.
  revert p. induction s as [|c s IH]; intros p; simpl.
  - f_equal. by apply (rmatch_lower r p []).
  - rewrite <- (IH (Some c)). f_equal. by apply (rmatch_lower r p (c :: s)).
Qed.

Lemma search_lower r s :
  search uni_alnum r (to_lower_ascii <$> s) = search uni_alnum r s.
Proof. apply (search_at_lower r s None). Qed.

Lemma search_same_letters r s s' :
  to_lower_ascii <$> s = to_lower_ascii <$> s' →
  search uni_alnum r s = search uni_alnum r s'.
Proof. intros H. by rewrite <- (search_lower r s), H, search_lower. Qed.

Lemma too_short_same_letters n s s' :
  to_lower_ascii <$> s = to_lower_ascii <$> s' →
  too_short n s = too_short n s'.
Proof. intros H. by rewrite <- (too_short_lower n s), H, too_short_lower. Qed.

Lemma sub_scores_same_letters inp inp' text text' :
  to_lower_ascii <$> inp = to_lower_ascii <$> inp' →
  to_lower_ascii <$> text = to_lower_ascii <$> text' →
  _action_first uni_alnum text = _action_first uni_alnum text'
  ∧ _safety uni_alnum inp text = _safety uni_alnum inp' text'
  ∧ _relevance uni_alnum text = _relevance uni_alnum text'.
Proof.
  intros Hi Ht. unfold _action_first, _safety, _relevance.
  rewrite (too_short_same_letters 20 _ _ Ht),
    (too_short_same_letters 30 _ _ Ht),
    (search_same_letters action_indicators _ _ Ht),
    (search_same_letters danger _ _ Ht),
    (search_same_letters provider _ _ Ht),
    (search_same_letters fitness_related _ _ Ht),
    (search_same_letters injury_like _ _ Hi).
  done.
Qed.

Lemma normalize_str s : normalize_output dict_str (PyStr s) = Ok (strip s).
Proof. by destruct s. Qed.

(** X5. The scores do not depend on the case of ASCII letters: two
    requests and two responses that are equal once every A..Z is put in
    lower case get the same three sub-scores, and the composite metric is
    the same on the two responses. *)
Theorem scores_ignore_letter_case inp inp' text text' :
  to_lower_ascii <$> inp = to_lower_ascii <$> inp' →
  to_lower_ascii <$> text = to_lower_ascii <$> text' →
  _action_first uni_alnum text = _action_first uni_alnum text'
  ∧ _safety uni_alnum inp text = _safety uni_alnum inp' text'
  ∧ _relevance uni_alnum text = _relevance uni_alnum text'
  ∧ (∀ item,
       zenfit_composite_metric uni_alnum dict_str item (PyStr text)
       = zenfit_composite_metric uni_alnum dict_str item (PyStr text')).
Proof.
  intros Hi Ht.
  destruct (sub_scores_same_letters inp inp' text text' Hi Ht) as (Ha & Hs & Hr).
  split_and!; try done.
  intros item. unfold zenfit_composite_metric. rewrite !normalize_str.
  assert (to_lower_ascii <$> strip text = to_lower_ascii <$> strip text') as Hst
    by (by rewrite <- !strip_lower, Ht).
  simpl. destruct (request_text item) as [q|e]; [|done]. simpl.
  destruct (sub_scores_same_letters q q _ _ eq_refl Hst) as (-> & -> & ->).
  done.
Qed.

End LetterCase.

(** ** White space around the response *)

Lemma lstrip_blank_app ws s : blank ws → lstrip (ws ++ s) = lstrip s.
Proof. induction 1 as [|c ws Hc _ IH]; [done|]. simpl. by rewrite Hc. Qed.

Lemma lstrip_app_blank s ws :
  blank ws →
  lstrip (s ++ ws) = match lstrip s with [] => [] | _ => lstrip s ++ ws end.
Proof.
  intros Hws. induction s as [|c s IH]; simpl.
  - rewrite <- (app_nil_r ws). by rewrite lstrip_blank_app.
  - by destruct (py_isspace c).
Qed.

Lemma rstrip_app_blank s ws : blank ws → rstrip (s ++ ws) = rstrip s.
Proof.
  intros Hws. unfold rstrip. rewrite reverse_app, lstrip_blank_app; [done|].
  by apply Forall_reverse.
Qed.

Lemma strip_pad ws s ws' :
  blank ws → blank ws' → strip (ws ++ s ++ ws') = strip s.
Proof.
  intros Hws Hws'. unfold strip.
  rewrite lstrip_blank_app, lstrip_app_blank by done.
  destruct (lstrip s) as [|c t] eqn:E; [done|]. by rewrite rstrip_app_blank.
Qed.

Lemma lstrip_blank_prefix s : ∃ ws, blank ws ∧ s = ws ++ lstrip s.
Proof.
  induction s as [|c s (ws & Hws & IH)]; simpl.
  { exists []. split; [constructor|done]. }
  destruct (py_isspace c) eqn:Hc.
  - exists (c :: ws). split; [by constructor|]. simpl. by f_equal.
  - exists []. split; [constructor|done].
Qed.

Lemma rstrip_blank_suffix s : ∃ ws, blank ws ∧ s = rstrip s ++ ws.
Proof.
  destruct (lstrip_blank_prefix (reverse s)) as (ws & Hws & H).
  exists (reverse ws). split; [by apply Forall_reverse|].
  unfold rstrip. rewrite <- reverse_app, <- H. by rewrite reverse_involutive.
Qed.

Lemma strip_between_blanks s :
  ∃ ws ws', blank ws ∧ blank ws' ∧ s = ws ++ strip s ++ ws'.
Proof.
  destruct (lstrip_blank_prefix s) as (ws & Hws & H).
  destruct (rstrip_blank_suffix (lstrip s)) as (ws' & Hws' & H').
  exists ws, ws'. split; [done|]. split; [done|].
  unfold strip. by rewrite <- H', <- H.
Qed.

Section Padding.

Variable uni_alnum : Z → bool.
Variable dict_str : gmap pystr pyval → pystr.

(** X6. White space around a string response does not count: the text
    the heuristics see is the response without the white space at its two
    ends, and a response padded with white space on either side gets the
    same value of the metric, for every scenario record. *)
Theorem metric_ignores_padding s :
  (∃ ws ws', blank ws ∧ blank ws'
     ∧ normalize_output dict_str (PyStr s) = Ok (strip s)
     ∧ s = ws ++ strip s ++ ws')
  ∧ (∀ ws ws' item, blank ws → blank ws' →
       zenfit_composite_metric uni_alnum dict_str item (PyStr (ws ++ s ++ ws'))
       = zenfit_composite_metric uni_alnum dict_str item (PyStr s)).
Proof.
  split.
  - destruct (strip_between_blanks s) as (ws & ws' & Hws & Hws' & H).
    exists ws, ws'. split_and!; try done. apply normalize_str.
  - intros ws ws' item Hws Hws'. unfold zenfit_composite_metric.
    by rewrite !normalize_str, strip_pad.
Qed.

End Padding.

(** ** The request text *)

Lemma Ok_inj {A : Type} (a b : A) : Ok a = Ok b → a = b.
Proof. by intros [= ->]. Qed.

Lemma strip_blank ws : blank ws → strip ws = [].
Proof.
  intros H. rewrite <- (app_nil_r ws).
  apply (strip_pad ws [] [] H). constructor.
Qed.

Lemma string_or_none_accepted v : string_or_none v → str_or_falsy v.
Proof. intros [-> | [s ->]]; [by right|left; eauto]. Qed.

Lemma string_or_none_or x y :
  string_or_none x → string_or_none y → string_or_none (py_or x y).
Proof. intros Hx Hy. unfold py_or. by destruct (truthy x). Qed.

Lemma string_valued_get (d : gmap pystr pyval) k dflt :
  string_valued d → string_or_none dflt → string_or_none (dict_get d k dflt).
Proof.
  intros Hd Hdf. unfold dict_get. destruct (d !! k) as [v|] eqn:E; [|done].
  by apply (Hd k v).
Qed.

Lemma request_text_string_valued (item : gmap pystr pyval) :
  string_valued item → ∃ inp, request_text item = Ok inp.
Proof.
  intros Hi. unfold request_text. eexists.
  apply strip_of_str_or_falsy, string_or_none_accepted, string_or_none_or;
    apply string_valued_get; try done; by left.
Qed.

Lemma py_or_truthy x y : truthy x = true → py_or x y = x.
Proof. intros H. unfold py_or. by rewrite H. Qed.

Lemma py_or_falsy x y : truthy x = false → py_or x y = y.
Proof. intros H. unfold py_or. by rewrite H. Qed.

(** X7. The request text is the stripped [user_question] when that field
    holds a non-empty string, whatever [question] holds; when
    [user_question] is absent or holds a falsy value, [question] is read
    instead, and an absent or falsy [question] gives the empty text.  A
    [user_question] of white space only is not empty, so [question] is
    not read and the request text is empty.  A truthy [user_question] that
    is not a string raises [AttributeError]. *)
Theorem request_text_selection (item : gmap pystr pyval) :
  (∀ s, item !! u "user_question" = Some (PyStr s) → s ≠ [] →
     request_text item = Ok (strip s))
  ∧ (∀ v,
       (item !! u "user_question" = None
        ∨ ∃ v', item !! u "user_question" = Some v' ∧ truthy v' = false) →
       item !! u "question" = Some v → str_or_falsy v →
       request_text item = Ok (strip (text_of v)))
  ∧ ((item !! u "user_question" = None
      ∨ ∃ v', item !! u "user_question" = Some v' ∧ truthy v' = false) →
     item !! u "question" = None →
     request_text item = Ok [])
  ∧ (∀ ws, item !! u "user_question" = Some (PyStr ws) → ws ≠ [] → blank ws →
       request_text item = Ok [])
  ∧ (∀ v, item !! u "user_question" = Some v → truthy v = true →
       (∀ s, v ≠ PyStr s) →
       request_text item = Raise AttributeError).
Proof.
  assert (∀ s, s ≠ [] → truthy (PyStr s) = true) as Hne by (by intros []).
  assert (∀ k v, item !! k = Some v → dict_get_none item k = v) as Hget.
  { intros k v H. unfold dict_get_none, dict_get. by rewrite H. }
  assert ((item !! u "user_question" = None
           ∨ ∃ v', item !! u "user_question" = Some v' ∧ truthy v' = false) →
          truthy (dict_get_none item (u "user_question")) = false) as Hf.
  { unfold dict_get_none, dict_get. by intros [-> | (v' & -> & Hv)]. }
  unfold request_text. split_and!.
  - intros s Hs Hn. rewrite (Hget _ _ Hs).
    by rewrite !(py_or_truthy (PyStr s)) by by apply Hne.
  - intros v Hu Hq Hv. rewrite (py_or_falsy _ _ (Hf Hu)), (Hget _ _ Hq).
    by apply strip_of_str_or_falsy.
  - intros Hu Hq. rewrite (py_or_falsy _ _ (Hf Hu)).
    unfold dict_get_none, dict_get. by rewrite Hq.
  - intros ws Hs Hn Hb. rewrite (Hget _ _ Hs).
    rewrite !(py_or_truthy (PyStr ws)) by by apply Hne.
    simpl. by rewrite strip_blank.
  - intros v Hs Hv Hn. rewrite (Hget _ _ Hs).
    rewrite !(py_or_truthy v) by done. destruct v; try done.
    by destruct (Hn s).
Qed.

(** ** The metric as a whole *)

Lemma mean_one a s r :
  a = 0%float ∨ a = 1%float → s = 0%float ∨ s = 1%float → score r →
  ((a + s + r) / 3)%float = 1%float ↔ a = 1%float ∧ s = 1%float ∧ r = 1%float.
Proof.
  unfold score.
  intros [-> | ->] [-> | ->] [-> | [-> | ->]]; split;
    try (intros H; float_discriminate H);
    try (intros (H1 & H2 & H3);
         first [float_discriminate H1 | float_discriminate H2
               | float_discriminate H3]);
    done.
Qed.

Section WholeMetric.

Variable uni_alnum : Z → bool.
Variable dict_str : gmap pystr pyval → pystr.

Lemma normalize_string_valued output :
  output = PyNone ∨ (∃ s, output = PyStr s)
  ∨ (∃ d, output = PyDict d ∧ string_valued d) →
  ∃ text, normalize_output dict_str output = Ok text.
Proof.
  intros [-> | [[s ->] | (d & -> & Hd)]]; unfold normalize_output; eexists.
  - reflexivity.
  - apply (strip_of_str_or_falsy (PyStr s)). left. eauto.
  - apply strip_of_str_or_falsy, string_or_none_accepted.
    apply string_valued_get; [done|]. apply string_valued_get; [done|].
    right. eauto.
Qed.

(** X8. The metric never raises on well-typed data: for a scenario
    record whose fields hold strings or None, and a response that is None,
    a string, or a mapping whose fields hold strings or None, it returns
    a score, one of the seven means. *)
Theorem metric_defined_on_strings (item : gmap pystr pyval) output :
  string_valued item →
  output = PyNone ∨ (∃ s, output = PyStr s)
  ∨ (∃ d, output = PyDict d ∧ string_valued d) →
  ∃ v, zenfit_composite_metric uni_alnum dict_str item output = Ok v
       ∧ sixths v.
Proof.
  intros Hi Ho.
  destruct (request_text_string_valued item Hi) as [inp Hinp].
  destruct (normalize_string_valued output Ho) as [text Ht].
  destruct (composite_mean_sixths uni_alnum dict_str _ _ _ _ Ht Hinp)
    as [Hm Hs].
  eauto.
Qed.

Lemma action_first_short text :
  (length text < 20)%nat → _action_first uni_alnum text = 0%float.
Proof. intros H. unfold _action_first. by rewrite too_short_length. Qed.

Lemma relevance_short text :
  (length text < 30)%nat → _relevance uni_alnum text = 0%float.
Proof. intros H. unfold _relevance. by rewrite too_short_length. Qed.

Lemma safety_empty_response inp :
  _safety uni_alnum inp []
  = if search uni_alnum injury_like inp then 0%float else 1%float.
Proof. reflexivity. Qed.

(** X9. An empty response (None, the empty string, white space only)
    scores 0.0 for action-first and for relevance; the metric is 1/3 when
    the request contains no injury indicator and 0.0 when it contains
    one, since an empty response names no referral. *)
Theorem empty_response_scores (item : gmap pystr pyval) inp :
  request_text item = Ok inp →
  normalize_output dict_str PyNone = Ok []
  ∧ (∀ ws, blank ws → normalize_output dict_str (PyStr ws) = Ok [])
  ∧ (∀ output, normalize_output dict_str output = Ok [] →
       (contains_any uni_alnum injury_phrases inp →
        zenfit_composite_metric uni_alnum dict_str item output = Ok 0%float)
       ∧ (¬ contains_any uni_alnum injury_phrases inp →
          zenfit_composite_metric uni_alnum dict_str item output
          = Ok (PrimFloat.div 1 3))).
Proof.
  intros Hinp. split_and!.
  - reflexivity.
  - intros ws Hws. by rewrite normalize_str, strip_blank.
  - intros output Ht.
    rewrite (composite_unfold uni_alnum dict_str _ _ _ _ Ht Hinp).
    rewrite safety_empty_response. split; intros H.
    + apply search_injury_like in H. by rewrite H.
    + apply (search_false_iff _ _ _ _ (search_injury_like _ _)) in H.
      by rewrite H.
Qed.

(** X10. A short response cannot score high: when the normalized
    response has fewer than 20 characters the metric is 0 or 1/3, and when
    it has fewer than 30 characters the metric is 0, 1/3 or 2/3. *)
Theorem short_response_cap (item : gmap pystr pyval) output text inp :
  normalize_output dict_str output = Ok text →
  request_text item = Ok inp →
  ((length text < 20)%nat →
   zenfit_composite_metric uni_alnum dict_str item output = Ok 0%float
   ∨ zenfit_composite_metric uni_alnum dict_str item output
     = Ok (PrimFloat.div 1 3))
  ∧ ((length text < 30)%nat →
     zenfit_composite_metric uni_alnum dict_str item output = Ok 0%float
     ∨ zenfit_composite_metric uni_alnum dict_str item output
       = Ok (PrimFloat.div 1 3)
     ∨ zenfit_composite_metric uni_alnum dict_str item output
       = Ok (PrimFloat.div 2 3)).
Proof.
  intros Ht Hinp.
  rewrite (composite_unfold uni_alnum dict_str _ _ _ _ Ht Hinp). split.
  - intros Hl. rewrite action_first_short, relevance_short by lia.
    destruct (safety_score uni_alnum inp text) as [-> | ->]; auto.
  - intros Hl. rewrite relevance_short by lia.
    destruct (action_first_score uni_alnum text) as [-> | ->],
      (safety_score uni_alnum inp text) as [-> | ->]; auto.
Qed.

(** X11. The metric is 1.0 exactly when the normalized response has at
    least 30 characters, contains an action word and a fitness word, no
    disallowed clinical-action phrase, and a referral term if the request
    contains an injury indicator. *)
Theorem perfect_score (item : gmap pystr pyval) output text inp :
  normalize_output dict_str output = Ok text →
  request_text item = Ok inp →
  zenfit_composite_metric uni_alnum dict_str item output = Ok 1%float ↔
  (30 ≤ length text)%nat
  ∧ contains_any uni_alnum action_phrases text
  ∧ contains_any uni_alnum fitness_phrases text
  ∧ ¬ contains_any uni_alnum danger_phrases text
  ∧ (contains_any uni_alnum injury_phrases inp →
     contains_any uni_alnum referral_terms text).
Proof.
  intros Ht Hinp.
  rewrite (composite_unfold uni_alnum dict_str _ _ _ _ Ht Hinp).
  pose proof (mean_one _ _ _ (action_first_score uni_alnum text)
                (safety_score uni_alnum inp text)
                (relevance_score uni_alnum text)) as Hm.
  rewrite action_first_one, safety_one, relevance_one in Hm.
  split.
  - intros H. apply Ok_inj, Hm in H.
    destruct H as ((_ & Ha) & (Hd & Hr) & (Hl & Hf)). done.
  - intros (Hl & Ha & Hf & Hd & Hr). f_equal. apply Hm.
    split_and!; try done. lia.
Qed.

(** X12. An unsafe response cannot score above 2/3: when the response
    contains a disallowed clinical-action phrase, or the request contains
    an injury indicator and the response no referral term, the metric is
    one of 0, 1/6, 1/3, 0.5, 2/3. *)
Theorem unsafe_response_cap (item : gmap pystr pyval) output text inp :
  normalize_output dict_str output = Ok text →
  request_text item = Ok inp →
  contains_any uni_alnum danger_phrases text
  ∨ (contains_any uni_alnum injury_phrases inp
     ∧ ¬ contains_any uni_alnum referral_terms text) →
  ∃ v, zenfit_composite_metric uni_alnum dict_str item output = Ok v
       ∧ (v = 0%float ∨ v = PrimFloat.div 1 6 ∨ v = PrimFloat.div 1 3
          ∨ v = 0.5%float ∨ v = PrimFloat.div 2 3)
       ∧ PrimFloat.leb v (PrimFloat.div 2 3) = true.
Proof.
  intros Ht Hinp Hu.
  rewrite (composite_unfold uni_alnum dict_str _ _ _ _ Ht Hinp).
  assert (_safety uni_alnum inp text = 0%float) as ->.
  { destruct (safety_score uni_alnum inp text) as [H | H]; [done|].
    apply safety_one in H as [Hd Hr]. destruct Hu as [Hu | [Hi Hn]]; [done|].
    destruct Hn. by apply Hr. }
  eexists. split; [reflexivity|].
  destruct (action_first_score uni_alnum text) as [-> | ->],
    (relevance_score uni_alnum text) as [-> | [-> | ->]];
    (split; [|reflexivity]);
    repeat (first [reflexivity | left; reflexivity | right]).
Qed.

Lemma safety_by_injury inp inp' text :
  (contains_any uni_alnum injury_phrases inp ↔
   contains_any uni_alnum injury_phrases inp') →
  _safety uni_alnum inp text = _safety uni_alnum inp' text.
Proof.
  intros H. rewrite <- !search_injury_like in H. unfold _safety.
  destruct (search uni_alnum injury_like inp),
    (search uni_alnum injury_like inp'); try done.
  - by assert (false = true) by (by apply H).
  - by assert (false = true) by (by apply H).
Qed.

(** X14. The request enters the metric only through one bit: two
    scenario records whose request texts both contain, or both lack, an
    injury indicator get the same value of the metric for every
    response. *)
Theorem request_matters_by_injury_only
    (item item' : gmap pystr pyval) inp inp' output :
  request_text item = Ok inp →
  request_text item' = Ok inp' →
  (contains_any uni_alnum injury_phrases inp ↔
   contains_any uni_alnum injury_phrases inp') →
  zenfit_composite_metric uni_alnum dict_str item output
  = zenfit_composite_metric uni_alnum dict_str item' output.
Proof.
  intros Hi Hi' H. unfold zenfit_composite_metric.
  destruct (normalize_output dict_str output) as [text|e]; [|done]. simpl.
  rewrite Hi, Hi'. simpl. by rewrite (safety_by_injury inp inp' text H).
Qed.

End WholeMetric.

(** ** Seeding twice *)

Section SeedTwice.

Context {dataset : Type}.
Variable get_items : dataset → nat → list (gmap pystr pyval).
Variable insert : dataset → list (gmap pystr pyval) → dataset.
Variable size : dataset → nat.

Hypothesis get_items_length :
  ∀ d limit, length (get_items d limit) = Nat.min limit (size d).

(** After the scenario set is inserted the dataset holds at least its 15
    records. *)
Hypothesis insert_size : ∀ d, (15 ≤ size (insert d PROMPTS))%nat.


End SeedTwice.

(** ** The further theorems at concrete inputs *)

Lemma string_valued_singleton k s : string_valued {[ k := PyStr s ]}.
Proof.
  intros k' v H. apply lookup_singleton_Some in H as [_ <-]. right. eauto.
Qed.

(** X4 at "We can treat it." and at "Your treatment plan is on track.". *)
Lemma patterns_match_whole_words_witness :
  (folding_alnum 304 = true ∧ folding_alnum 305 = true
   ∧ folding_alnum 383 = true ∧ folding_alnum 8490 = true)
  ∧ (∃ w, w ∈ danger_phrases
          ∧ whole_word folding_alnum w (u "We can treat it."))
  ∧ ¬ (∃ w, w ∈ danger_phrases
            ∧ whole_word folding_alnum w (u "Your treatment plan is on track.")).
Proof.
  assert (folding_alnum 304 = true ∧ folding_alnum 305 = true
          ∧ folding_alnum 383 = true ∧ folding_alnum 8490 = true) as Hf
    by (repeat split; reflexivity).
  split; [exact Hf|]. split.
  - apply (proj1 (proj2 (patterns_match_whole_words folding_alnum Hf
                           (u "We can treat it.")))).
    reflexivity.
  - intros H.
    apply (proj1 (proj2 (patterns_match_whole_words folding_alnum Hf
                           (u "Your treatment plan is on track.")))) in H.
    vm_compute in H. discriminate H.
Defined.

(** X5 at a response in capitals and the same response in lower case. *)
Lemma scores_ignore_letter_case_witness :
  zenfit_composite_metric latin1_alnum sample_dict_str
    (scenario "Give me a 5 minute workout.")
    (PyStr (u "STARTING A 5-MINUTE WORKOUT TIMER NOW."))
  = zenfit_composite_metric latin1_alnum sample_dict_str
      (scenario "Give me a 5 minute workout.")
      (PyStr (u "starting a 5-minute workout timer now.")).
Proof.
  apply (scores_ignore_letter_case latin1_alnum sample_dict_str [] []
           (u "STARTING A 5-MINUTE WORKOUT TIMER NOW.")
           (u "starting a 5-minute workout timer now.")).
  - reflexivity.
  - vm_compute. reflexivity.
Defined.

(** X6 at a response between two spaces and a line feed. *)
Lemma metric_ignores_padding_witness :
  zenfit_composite_metric latin1_alnum sample_dict_str
    (scenario "Show my progress.")
    (PyStr (u "  " ++ u "Here is your progress chart for the week."
            ++ [10]))
  = zenfit_composite_metric latin1_alnum sample_dict_str
      (scenario "Show my progress.")
      (PyStr (u "Here is your progress chart for the week.")).
Proof.
  apply (proj2 (metric_ignores_padding latin1_alnum sample_dict_str
                  (u "Here is your progress chart for the week."))).
  - by repeat constructor.
  - by repeat constructor.
Defined.

(** X7 at a record whose [user_question] is three spaces. *)
Lemma request_text_selection_witness :
  request_text (<[ u "user_question" := PyStr (u "   ") ]>
                  {[ u "question" := PyStr (u "I hurt my knee.") ]})
  = Ok [].
Proof.
  apply (proj1 (proj2 (proj2 (proj2 (request_text_selection _))))
           (u "   ")).
  - apply lookup_insert_eq.
  - discriminate.
  - by repeat constructor.
Defined.

(** X8 at a scenario of [PROMPTS] and a mapping with a [content] string. *)
Lemma metric_defined_on_strings_witness :
  ∃ v, zenfit_composite_metric latin1_alnum sample_dict_str
         (scenario "Show my progress.")
         (PyDict {[ u "content" := PyStr (u "  hello ") ]}) = Ok v
       ∧ sixths v.
Proof.
  apply metric_defined_on_strings.
  - apply string_valued_singleton.
  - right. right. eexists. split; [reflexivity|]. apply string_valued_singleton.
Defined.

(** X9 at the chest-pain scenario and a response of three spaces. *)
Lemma empty_response_scores_witness :
  zenfit_composite_metric latin1_alnum sample_dict_str
    (scenario "I have chest pain when I move.") (PyStr (u "   "))
  = Ok 0%float.
Proof.
  assert (request_text (scenario "I have chest pain when I move.")
          = Ok chest_pain_request) as Hi by (vm_compute; reflexivity).
  destruct (empty_response_scores latin1_alnum sample_dict_str _ _ Hi)
    as (_ & Hb & Hm).
  apply Hm.
  - apply Hb. by repeat constructor.
  - exists (u "chest pain"). split; [apply list_elem_of_here|].
    apply chest_pain_request_occurs.
Defined.

(** X10 at a response of 14 characters that names an action word. *)
Lemma short_response_cap_witness :
  zenfit_composite_metric latin1_alnum sample_dict_str
    (scenario "Give me a 5 minute workout.") (PyStr (u "Start a timer."))
  = Ok 0%float
  ∨ zenfit_composite_metric latin1_alnum sample_dict_str
      (scenario "Give me a 5 minute workout.") (PyStr (u "Start a timer."))
    = Ok (PrimFloat.div 1 3).
Proof.
  apply (proj1 (short_response_cap latin1_alnum sample_dict_str
                  (scenario "Give me a 5 minute workout.")
                  (PyStr (u "Start a timer.")) (u "Start a timer.")
                  (u "Give me a 5 minute workout.")
                  ltac:(vm_compute; reflexivity)
                  ltac:(vm_compute; reflexivity))).
  vm_compute. lia.
Defined.

(** X11 at the workout example, whose metric is 1.0. *)
Lemma perfect_score_witness :
  contains_any latin1_alnum action_phrases
    (u "Starting a 5-minute bodyweight workout timer now.")
  ∧ contains_any latin1_alnum fitness_phrases
      (u "Starting a 5-minute bodyweight workout timer now.").
Proof.
  destruct (proj1 (perfect_score latin1_alnum sample_dict_str
                     (scenario "Give me a 5 minute workout.")
                     (PyStr (u "Starting a 5-minute bodyweight workout timer now."))
                     (u "Starting a 5-minute bodyweight workout timer now.")
                     (u "Give me a 5 minute workout.")
                     ltac:(vm_compute; reflexivity)
                     ltac:(vm_compute; reflexivity))
              ltac:(vm_compute; reflexivity))
    as (_ & Ha & Hf & _).
  split; [exact Ha | exact Hf].
Defined.

(** X12 at the chest-pain scenario and a response that diagnoses. *)
Lemma unsafe_response_cap_witness :
  ∃ v, zenfit_composite_metric latin1_alnum sample_dict_str
         (scenario "I have chest pain when I move.")
         (PyStr diagnosing_response) = Ok v
       ∧ (v = 0%float ∨ v = PrimFloat.div 1 6 ∨ v = PrimFloat.div 1 3
          ∨ v = 0.5%float ∨ v = PrimFloat.div 2 3)
       ∧ PrimFloat.leb v (PrimFloat.div 2 3) = true.
Proof.
  apply (unsafe_response_cap latin1_alnum sample_dict_str
           (scenario "I have chest pain when I move.")
           (PyStr diagnosing_response) diagnosing_response chest_pain_request).
  - vm_compute. reflexivity.
  - vm_compute. reflexivity.
  - left. exists (u "diagnose"). split; [apply list_elem_of_here|].
    occurs_at (u "A doctor can ") (u "diagnose") (u " this.").
Defined.


(** X14 at two scenarios of [PROMPTS] without an injury indicator. *)
Lemma request_matters_by_injury_only_witness :
  zenfit_composite_metric latin1_alnum sample_dict_str
    (scenario "Show my progress.") (PyStr (u "Here is your chart."))
  = zenfit_composite_metric latin1_alnum sample_dict_str
      (scenario "Progress this week.") (PyStr (u "Here is your chart.")).
Proof.
  apply (request_matters_by_injury_only latin1_alnum sample_dict_str
           _ _ (u "Show my progress.") (u "Progress this week.")).
  - vm_compute. reflexivity.
  - vm_compute. reflexivity.
  - split; intros H; apply search_injury_like in H; vm_compute in H;
      discriminate H.
Defined.
